(** * Library service: catalog admission, borrowing, returns and late fees

    A shallow embedding of [library_service.py] and proofs about its
    borrow / return / late-fee lifecycle.

    Conventions of the embedding.
    - A Python [str] is a [string] whose characters are read as the code
      points 0..255.
    - An argument whose Python type annotation is not enforced by the code
      is a [pyobj]; an uncaught Python exception is the outcome [Raises].
    - [datetime.now()] is an explicit argument: a naive local time in
      whole seconds since [datetime.min]; its calendar date is the day
      number [t / 86400], and arithmetic that leaves the years 1..9999
      raises [OverflowError] as in Python.
    - The floats of the fee computation are rationals.  Every product, sum
      and minimum the code takes there is a multiple of one half below
      2^53, which binary floating point holds exactly; the final
      [round(fee + 1e-9, 2)] is decimal rounding, half to even, of the
      exact sum.
    - The storage layer ([database.py]) is modelled from its contract; each
      write takes a flag saying whether the storage engine carried it
      out. An integer bound to a query is a signed 64-bit value; the one
      query the service runs itself raises [OverflowError] outside that
      range. *)

From Stdlib Require Import ZArith QArith Qround Bool List String Ascii Lia.
From Stdlib Require Import Qminmax.
Import ListNotations.
Local Open Scope string_scope.
Local Open Scope Z_scope.

(* ===================================================================== *)
(** ** Python values, exceptions and strings                              *)
(* ===================================================================== *)

Module Py.

Inductive pyobj : Type :=
| PyNone
| PyBool (b : bool)
| PyInt (z : Z)
| PyStr (s : string).

Inductive exn : Type :=
| AttributeError
| OverflowError.

Inductive outcome (A : Type) : Type :=
| Returns (a : A)
| Raises (e : exn).
Arguments Returns {A} a.
Arguments Raises {A} e.

Definition bind {A B : Type} (m : outcome A) (k : A -> outcome B) : outcome B :=
  match m with
  | Returns a => k a
  | Raises e => Raises e
  end.

(** [bool(x)] *)
Definition truthy (o : pyobj) : bool :=
  match o with
  | PyNone => false
  | PyBool b => b
  | PyInt z => negb (z =? 0)
  | PyStr s => negb (String.eqb s "")
  end.

(** [isinstance(x, int)]: [bool] is a subclass of [int]. *)
Definition isinstance_int (o : pyobj) : bool :=
  match o with
  | PyInt _ | PyBool _ => true
  | _ => false
  end.

(** The integer an [int] instance compares and is stored as. *)
Definition int_value (o : pyobj) : Z :=
  match o with
  | PyInt z => z
  | PyBool true => 1
  | _ => 0
  end.

Definition code (c : ascii) : nat := nat_of_ascii c.

(** [c.isspace()] on the code points 0..255. *)
Definition isspace_char (c : ascii) : bool :=
  let n := code c in
  ((9 <=? n) && (n <=? 13) || (28 <=? n) && (n <=? 32)
   || (n =? 133) || (n =? 160))%nat.

(** [c.isdigit()] on the code points 0..255: the ten decimal digits and
    the superscripts one, two and three. *)
Definition isdigit_char (c : ascii) : bool :=
  let n := code c in
  ((48 <=? n) && (n <=? 57) || (n =? 178) || (n =? 179) || (n =? 185))%nat.

(** A decimal digit in the sense of [int()]. *)
Definition isdecimal_char (c : ascii) : bool :=
  let n := code c in ((48 <=? n) && (n <=? 57))%nat.

Fixpoint lstrip_chars (cs : list ascii) : list ascii :=
  match cs with
  | [] => []
  | c :: cs' => if isspace_char c then lstrip_chars cs' else cs
  end.

(** [s.strip()] *)
Definition strip (s : string) : string :=
  string_of_list_ascii
    (rev (lstrip_chars (rev (lstrip_chars (list_ascii_of_string s))))).

(** [s.isdigit()]: false on the empty string. *)
Definition isdigit (s : string) : bool :=
  match list_ascii_of_string s with
  | [] => false
  | cs => forallb isdigit_char cs
  end.

(** [len(s)] *)
Definition len (s : string) : Z := Z.of_nat (String.length s).

(** Digits of an integer literal, single underscores allowed between two
    digits. [seen] says that the previous character was a digit. *)
Fixpoint digits_value (acc : Z) (seen : bool) (cs : list ascii) : option Z :=
  match cs with
  | [] => if seen then Some acc else None
  | c :: cs' =>
      if isdecimal_char c
      then digits_value (10 * acc + (Z.of_nat (code c) - 48)) true cs'
      else if (code c =? 95)%nat && seen
           then digits_value acc false cs'
           else None
  end.

(** The whitespace that [int()] skips around a literal, on the code
    points 0..255: tab to carriage return, space, and the two non-ASCII
    spaces 133 and 160. The separators 28..31, which [str.strip()] removes,
    are not among them. *)
Definition isspace_int_char (c : ascii) : bool :=
  let n := code c in
  ((9 <=? n) && (n <=? 13) || (n =? 32) || (n =? 133) || (n =? 160))%nat.

Fixpoint lstrip_int_chars (cs : list ascii) : list ascii :=
  match cs with
  | [] => []
  | c :: cs' => if isspace_int_char c then lstrip_int_chars cs' else cs
  end.

(** [sys.int_max_str_digits]: [int()] refuses a literal with more digits. *)
Definition int_max_str_digits : Z := 4300.

(** [int(s)] for a text, [None] where it raises [ValueError]: optional
    whitespace, an optional sign, then digits. *)
Definition int_of_str (s : string) : option Z :=
  let cs :=
    rev (lstrip_int_chars (rev (lstrip_int_chars (list_ascii_of_string s)))) in
  if int_max_str_digits <? Z.of_nat (List.length (filter isdecimal_char cs))
  then None
  else
    match cs with
    | c :: cs' =>
        if (code c =? 45)%nat then option_map Z.opp (digits_value 0 false cs')
        else if (code c =? 43)%nat then digits_value 0 false cs'
        else digits_value 0 false (c :: cs')
    | [] => None
    end.

(** [int(x)] under [try: ... except Exception]: [None] when it raises. *)
Definition try_int (o : pyobj) : option Z :=
  match o with
  | PyNone => None
  | PyBool b => Some (if b then 1 else 0)
  | PyInt z => Some z
  | PyStr s => int_of_str s
  end.

End Py.
Import Py.

Notation "x <- m ;; k" := (Py.bind m (fun x => k))
  (at level 61, m at next level, right associativity).

(* ===================================================================== *)
(** ** The storage layer                                                  *)
(* ===================================================================== *)

(** A [datetime]: whole seconds on the naive local time line, counted from
    [datetime.min], the start of year 1. *)
Definition datetime : Type := Z.

(** The last second of [datetime.max], the end of year 9999
    ([date.max.toordinal()] is 3652059). *)
Definition max_datetime : datetime := 3652059 * 86400 - 1.

Definition in_datetime_range (t : Z) : bool := (0 <=? t) && (t <=? max_datetime).

(** [dt.date()] as a day number. *)
Definition date (t : datetime) : Z := t / 86400.

(** The instant [n] days after [t]. *)
Definition plus_days (t : datetime) (n : Z) : datetime := t + n * 86400.

(** [dt + timedelta(days=n)]: [OverflowError] when the sum is not a
    [datetime]. *)
Definition add_timedelta_days (t : datetime) (n : Z) : outcome datetime :=
  if in_datetime_range (plus_days t n) then Returns (plus_days t n)
  else Raises OverflowError.

(** A date column as stored: text that [datetime.fromisoformat] reads back,
    or text that it rejects. *)
Inductive date_text : Type :=
| Iso (t : datetime)
| Malformed (s : string).

(** [datetime.fromisoformat(text)] under [try: ... except Exception]. *)
Definition fromisoformat (d : date_text) : option datetime :=
  match d with
  | Iso t => Some t
  | Malformed _ => None
  end.

Module Db.

(** Modelled from the spec: a row of the table of books of the absent
    [database.py], with the fields of the Book of the data model. *)
Record book : Type := mkBook {
  id : Z;
  title : string;
  author : string;
  isbn : string;
  total_copies : Z;
  available_copies : Z
}.

(** Modelled from the spec: a row of the table [borrows] of the absent
    [database.py], with the fields of the BorrowRecord of the data model.
    Its row id is its position: the table is kept newest row first, so
    [ORDER BY id DESC] is the order of the list. *)
Record borrow : Type := mkBorrow {
  patron_id : string;
  book_id : Z;
  borrow_date : date_text;
  due_date : date_text;
  return_date : option datetime
}.

(** Modelled from the spec: the two tables behind [get_db_connection]. *)
Record db : Type := mkDb {
  books : list book;
  borrows : list borrow
}.

Definition empty : db := {| books := []; borrows := [] |}.

(** An integer that SQLite can hold and bind: a signed 64-bit value. *)
Definition in_int64 (z : Z) : bool :=
  (- 2 ^ 63 <=? z) && (z <? 2 ^ 63).

(** Modelled from the spec: [get_book_by_id] of the absent [database.py],
    [get_book_by_id(id) -> Book|null]. *)
Definition get_book_by_id (bid : Z) (s : db) : option book :=
  find (fun b => id b =? bid) (books s).

(** Modelled from the spec: [get_book_by_isbn] of the absent [database.py],
    [get_book_by_isbn(isbn) -> Book|null]. *)
Definition get_book_by_isbn (i : string) (s : db) : option book :=
  find (fun b => String.eqb (isbn b) i) (books s).

(** Modelled from the spec: the id generated on insert is one more than
    the largest id in use, 0 for an empty table. *)
Definition max_id (bs : list book) : Z :=
  fold_right (fun b m => Z.max (id b) m) 0 bs.

(** Modelled from the spec: [insert_book] of the absent [database.py],
    [insert_book(title, author, isbn, total, available) -> bool], the id
    being generated on insert. [ok] is false when the write fails. *)
Definition insert_book (ok : bool) (t a i : string) (total avail : Z)
    (s : db) : bool * db :=
  if ok
  then (true,
        {| books := mkBook (max_id (books s) + 1) t a i total avail :: books s;
           borrows := borrows s |})
  else (false, s).

(** Modelled from the spec: the active (unreturned) records of a patron,
    which [get_patron_borrow_count] counts. *)
Definition active_of (p : string) (r : borrow) : bool :=
  String.eqb (patron_id r) p &&
  match return_date r with None => true | Some _ => false end.

(** [WHERE patron_id = ? AND book_id = ? AND return_date IS NULL] *)
Definition active_for (p : string) (bid : Z) (r : borrow) : bool :=
  String.eqb (patron_id r) p && (book_id r =? bid) &&
  match return_date r with None => true | Some _ => false end.

(** Modelled from the spec: [get_patron_borrow_count] of the absent
    [database.py], the count of active (unreturned) records of a patron. *)
Definition get_patron_borrow_count (p : string) (s : db) : Z :=
  Z.of_nat (List.length (filter (active_of p) (borrows s))).

(** Modelled from the spec: [insert_borrow_record] of the absent
    [database.py], [insert_borrow_record(patron_id, book_id, borrow_date,
    due_date) -> bool]; the new record is active. The write fails when
    [ok] is false, and for a book id that SQLite cannot bind: rows enter
    the table here only, so no row holds a book id outside that range. *)
Definition insert_borrow_record (ok : bool) (p : string) (bid : Z)
    (borrowed due : datetime) (s : db) : bool * db :=
  if ok && in_int64 bid
  then (true,
        {| books := books s;
           borrows := mkBorrow p bid (Iso borrowed) (Iso due) None :: borrows s |})
  else (false, s).

(** Modelled from the spec: the row update of
    [update_borrow_record_return_date], which sets [return_date] on the
    most recently created active row of ([p], [bid]); [None] when there is
    no such row. *)
Fixpoint close_latest (p : string) (bid : Z) (now : datetime)
    (rows : list borrow) : option (list borrow) :=
  match rows with
  | [] => None
  | r :: rs =>
      if active_for p bid r
      then Some (mkBorrow (patron_id r) (book_id r) (borrow_date r)
                   (due_date r) (Some now) :: rs)
      else option_map (cons r) (close_latest p bid now rs)
  end.

(** Modelled from the spec: [update_borrow_record_return_date] of the
    absent [database.py], which returns false if no matching active record
    exists and, when several match, operates on the most recently created
    one. *)
Definition update_borrow_record_return_date (ok : bool) (p : string)
    (bid : Z) (now : datetime) (s : db) : bool * db :=
  if ok
  then match close_latest p bid now (borrows s) with
       | Some rows => (true, {| books := books s; borrows := rows |})
       | None => (false, s)
       end
  else (false, s).

(** Modelled from the spec: the row update of [update_book_availability]. *)
Definition add_available (bid delta : Z) (b : book) : book :=
  if id b =? bid
  then mkBook (id b) (title b) (author b) (isbn b) (total_copies b)
         (available_copies b + delta)
  else b.

(** Modelled from the spec: [update_book_availability] of the absent
    [database.py], [update_book_availability(book_id, delta) -> bool],
    which adds [delta] to the book's [available_copies]. *)
Definition update_book_availability (ok : bool) (bid delta : Z)
    (s : db) : bool * db :=
  if ok
  then (true,
        {| books := map (add_available bid delta) (books s);
           borrows := borrows s |})
  else (false, s).

End Db.
Import Db.

(* ===================================================================== *)
(** ** The service: [library_service.py]                                  *)
(* ===================================================================== *)

(** The second component of the [(success, message)] tuples, one
    constructor per message text of the source. *)
Inductive message : Type :=
| Title_required            (* Title is required. *)
| Title_too_long            (* Title must be less than 200 characters. *)
| Author_required           (* Author is required. *)
| Author_too_long           (* Author must be less than 100 characters. *)
| Isbn_not_13_digits        (* ISBN must be exactly 13 digits. *)
| Copies_not_positive       (* Total copies must be a positive integer. *)
| Isbn_exists               (* A book with this ISBN already exists. *)
| Book_added (t : string)   (* Book t has been successfully added ... *)
| Db_error_adding           (* Database error occurred while adding the book. *)
| Invalid_patron_id         (* Invalid patron ID. Must be exactly 6 digits. *)
| Book_not_found            (* Book not found. *)
| Not_available             (* This book is currently not available. *)
| Limit_reached             (* You have reached the maximum borrowing limit of 5 books. *)
| Db_error_borrow_record    (* Database error occurred while creating borrow record. *)
| Db_error_book_availability (* Database error occurred while updating book availability. *)
| Borrowed (t : string) (due_day : Z) (* Successfully borrowed t. Due date: Y-m-d. *)
| Invalid_book_id           (* Invalid book id. *)
| No_active_borrow          (* No active borrow for this patron and book. *)
| Db_error_availability     (* Database error occurred while updating availability. *)
| Returned (t : string).    (* Returned t. *)

(** The error taxonomy of the specification. *)
Inductive error : Type :=
| ValidationError | DuplicateIsbnError | BookNotFound | BookUnavailable
| BorrowLimitExceeded | InvalidPatronId | InvalidBookId | NoActiveLoan
| PersistenceError.

Definition error_of (m : message) : option error :=
  match m with
  | Title_required | Title_too_long | Author_required | Author_too_long
  | Isbn_not_13_digits | Copies_not_positive => Some ValidationError
  | Isbn_exists => Some DuplicateIsbnError
  | Db_error_adding | Db_error_borrow_record | Db_error_book_availability
  | Db_error_availability => Some PersistenceError
  | Invalid_patron_id => Some InvalidPatronId
  | Book_not_found => Some BookNotFound
  | Not_available => Some BookUnavailable
  | Limit_reached => Some BorrowLimitExceeded
  | Invalid_book_id => Some InvalidBookId
  | No_active_borrow => Some NoActiveLoan
  | Book_added _ | Borrowed _ _ | Returned _ => None
  end.

Definition response : Type := (outcome (bool * message) * db)%type.

(** [(x or "").strip()] *)
Definition or_empty_strip (x : pyobj) : outcome string :=
  if truthy x
  then match x with
       | PyStr s => Returns (strip s)
       | _ => Raises AttributeError
       end
  else Returns (strip "").

Definition add_book_to_catalog (ok : bool)
    (title author isbn total_copies : pyobj) (s : db) : response :=
  match (t <- or_empty_strip title ;;
         a <- or_empty_strip author ;;
         i <- or_empty_strip isbn ;;
         Returns (t, a, i)) with
  | Raises e => (Raises e, s)
  | Returns (title, author, isbn) =>
      if String.eqb title "" then (Returns (false, Title_required), s)
      else if len title >? 200 then (Returns (false, Title_too_long), s)
      else if String.eqb author "" then (Returns (false, Author_required), s)
      else if len author >? 100 then (Returns (false, Author_too_long), s)
      else if negb (len isbn =? 13) || negb (isdigit isbn)
      then (Returns (false, Isbn_not_13_digits), s)
      else if negb (isinstance_int total_copies)
              || (int_value total_copies <=? 0)
      then (Returns (false, Copies_not_positive), s)
      else
        match get_book_by_isbn isbn s with
        | Some _ => (Returns (false, Isbn_exists), s)
        | None =>
            let '(success, s1) :=
              insert_book ok title author isbn
                (int_value total_copies) (int_value total_copies) s in
            if success then (Returns (true, Book_added title), s1)
            else (Returns (false, Db_error_adding), s1)
        end
  end.

(** [not patron_id or not patron_id.isdigit() or len(patron_id) != 6] *)
Definition patron_id_rejected (patron_id : pyobj) : outcome bool :=
  if negb (truthy patron_id) then Returns true
  else match patron_id with
       | PyStr p => Returns (negb (isdigit p) || negb (len p =? 6))
       | _ => Raises AttributeError
       end.

(** The text of a patron id that passed the check. *)
Definition str_of (x : pyobj) : string :=
  match x with
  | PyStr p => p
  | _ => ""
  end.

Definition borrow_book_by_patron (ok_record ok_avail : bool) (now : datetime)
    (patron_id : pyobj) (book_id : Z) (s : db) : response :=
  match patron_id_rejected patron_id with
  | Raises e => (Raises e, s)
  | Returns true => (Returns (false, Invalid_patron_id), s)
  | Returns false =>
      match get_book_by_id book_id s with
      | None => (Returns (false, Book_not_found), s)
      | Some book =>
          if available_copies book <=? 0
          then (Returns (false, Not_available), s)
          else
            let current_borrowed :=
              get_patron_borrow_count (str_of patron_id) s in
            if current_borrowed >=? 5
            then (Returns (false, Limit_reached), s)
            else
              let borrow_date := now in
              match add_timedelta_days borrow_date 14 with
              | Raises e => (Raises e, s)
              | Returns due_date =>
                  let '(borrow_success, s1) :=
                    insert_borrow_record ok_record (str_of patron_id) book_id
                      borrow_date due_date s in
                  if negb borrow_success
                  then (Returns (false, Db_error_borrow_record), s1)
                  else
                    let '(availability_success, s2) :=
                      update_book_availability ok_avail book_id (-1) s1 in
                    if negb availability_success
                    then (Returns (false, Db_error_book_availability), s2)
                    else (Returns (true,
                                   Borrowed (title book) (date due_date)), s2)
              end
      end
  end.

Definition return_book_by_patron (ok_record ok_avail : bool) (now : datetime)
    (patron_id book_id : pyobj) (s : db) : response :=
  match patron_id_rejected patron_id with
  | Raises e => (Raises e, s)
  | Returns true => (Returns (false, Invalid_patron_id), s)
  | Returns false =>
      match try_int book_id with
      | None => (Returns (false, Invalid_book_id), s)
      | Some book_id =>
          match get_book_by_id book_id s with
          | None => (Returns (false, Book_not_found), s)
          | Some book =>
              let '(updated, s1) :=
                update_borrow_record_return_date ok_record
                  (str_of patron_id) book_id now s in
              if negb updated
              then (Returns (false, No_active_borrow), s1)
              else
                let '(incremented, s2) :=
                  update_book_availability ok_avail book_id 1 s1 in
                if negb incremented
                then (Returns (false, Db_error_availability), s2)
                else (Returns (true, Returned (title book)), s2)
          end
      end
  end.

Inductive fee_status : Type := on_time | late | no_active_loan.

Record fee_report : Type := mkFee {
  fee_amount : Q;
  days_overdue : Z;
  status : fee_status
}.

(** Rounding to the nearest integer, ties to the even one. *)
Definition round_half_even (x : Q) : Z :=
  let f := Qfloor x in
  match Qcompare (x - inject_Z f) (1 # 2) with
  | Lt => f
  | Gt => f + 1
  | Eq => if Z.even f then f else f + 1
  end.

(** [round(x, 2)] *)
Definition round2 (x : Q) : Q := (inject_Z (round_half_even (x * 100)) / 100)%Q.

(** The query of [calculate_late_fee_for_book]:
    [SELECT id, due_date FROM borrows WHERE patron_id = ? AND book_id = ?
     AND return_date IS NULL ORDER BY id DESC LIMIT 1], then [fetchone()].
    Binding an integer outside the signed 64-bit range raises
    [OverflowError], and nothing around [conn.execute] catches it. *)
Definition latest_active (p : string) (bid : Z) (s : db)
    : outcome (option borrow) :=
  if in_int64 bid then Returns (find (active_for p bid) (borrows s))
  else Raises OverflowError.

Definition calculate_late_fee_for_book (today : datetime)
    (patron_id book_id : pyobj) (s : db) : outcome fee_report :=
  rejected <- patron_id_rejected patron_id ;;
  if (rejected : bool) then Returns (mkFee 0 0 no_active_loan)
  else
    match try_int book_id with
    | None => Returns (mkFee 0 0 no_active_loan)
    | Some book_id =>
        row <- latest_active (str_of patron_id) book_id s ;;
        match row with
        | None => Returns (mkFee 0 0 no_active_loan)
        | Some row =>
            match fromisoformat (due_date row) with
            | None => Returns (mkFee 0 0 no_active_loan)
            | Some due_dt =>
                let days_overdue := Z.max 0 (date today - date due_dt) in
                if days_overdue =? 0 then Returns (mkFee 0 0 on_time)
                else
                  let tier1_days := Z.min days_overdue 7 in
                  let tier2_days := Z.max (days_overdue - 7) 0 in
                  let fee := (inject_Z tier1_days * (1 # 2)
                              + inject_Z tier2_days * 1)%Q in
                  let fee_capped := Qmin 15 fee in
                  let fee_capped := round2 (fee_capped + (1 # 1000000000)) in
                  Returns (mkFee fee_capped days_overdue late)
            end
        end
    end.

(* ===================================================================== *)
(** ** Vocabulary of the properties                                       *)
(* ===================================================================== *)

(** The report of every path that finds no usable loan. *)
Definition no_loan_report : fee_report := mkFee 0 0 no_active_loan.

(** The fee as the specification words it:
    min(15.00, 0.50 * min(d, 7) + 1.00 * max(d - 7, 0)). *)
Definition tiered_fee (d : Z) : Q :=
  Qmin 15 ((1 # 2) * inject_Z (Z.min d 7) + 1 * inject_Z (Z.max (d - 7) 0))%Q.

(** Exactly six numeric digits. *)
Definition six_digits (p : string) : bool := isdigit p && (len p =? 6).

(** A value the text checks take without raising: a string, or a falsy
    value such as [None]. A truthy value of another type has no [isdigit]
    and no [strip]. *)
Definition str_or_falsy (x : pyobj) : Prop :=
  truthy x = false \/ exists t, x = PyStr t.

(** The checks of [add_book_to_catalog] on the trimmed title, author and
    isbn. *)
Definition valid_texts (t a i : string) : bool :=
  negb (String.eqb t "") && (len t <=? 200)
  && negb (String.eqb a "") && (len a <=? 100)
  && (len i =? 13) && isdigit i.

(** All field checks of [add_book_to_catalog]. *)
Definition passes_validation (t a i : string) (n : pyobj) : bool :=
  valid_texts t a i && isinstance_int n && (0 <? int_value n).

(** [available_copies] of the book with the given id. *)
Definition available_of (bid : Z) (s : db) : option Z :=
  option_map available_copies (get_book_by_id bid s).

(** Active loans of a book, over all patrons. *)
Definition on_loan (bid : Z) (r : borrow) : bool :=
  (book_id r =? bid) &&
  match return_date r with None => true | Some _ => false end.

Definition loans_of (bid : Z) (rows : list borrow) : Z :=
  Z.of_nat (List.length (filter (on_loan bid) rows)).

(** A call of the service, with the clock reading it sees and the fate of
    its writes. *)
Inductive op : Type :=
| Add (ok : bool) (title author isbn total_copies : pyobj)
| Borrow (ok_record ok_avail : bool) (now : datetime)
    (patron_id : pyobj) (book_id : Z)
| Return (ok_record ok_avail : bool) (now : datetime)
    (patron_id book_id : pyobj).

Definition step (o : op) (s : db) : response :=
  match o with
  | Add ok t a i n => add_book_to_catalog ok t a i n s
  | Borrow k1 k2 now p b => borrow_book_by_patron k1 k2 now p b s
  | Return k1 k2 now p b => return_book_by_patron k1 k2 now p b s
  end.

(** Runs the calls in order; the results are listed first call first. *)
Fixpoint run (ops : list op) (s : db)
    : list (outcome (bool * message)) * db :=
  match ops with
  | [] => ([], s)
  | o :: ops' =>
      let '(r, s1) := step o s in
      let '(rs, s2) := run ops' s1 in
      (r :: rs, s2)
  end.

Definition succeeded (r : outcome (bool * message)) : bool :=
  match r with
  | Returns (true, _) => true
  | _ => false
  end.

(** One borrow followed by the return of the same pair, per element. *)
Fixpoint rounds (p : string) (bid : Z)
    (ts : list ((bool * bool * datetime) * (bool * bool * datetime)))
    : list op :=
  match ts with
  | [] => []
  | ((k1, k2, t1), (k3, k4, t2)) :: ts' =>
      Borrow k1 k2 t1 (PyStr p) bid
      :: Return k3 k4 t2 (PyStr p) (PyInt bid)
      :: rounds p bid ts'
  end.


(** What the operations maintain: ids are unique, every borrow record is
    of a stored book, no counter is negative, and the copies on the shelf
    plus the copies on loan never exceed the stock. *)
Record consistent (s : db) : Prop := mkConsistent {
  ids_unique : NoDup (map id (books s));
  loans_known : forall r, In r (borrows s) ->
                  exists b, In b (books s) /\ id b = book_id r;
  stock : forall b, In b (books s) ->
            0 <= available_copies b /\
            available_copies b + loans_of (id b) (borrows s) <= total_copies b
}.

(** A store with one book, none of its copies on the shelf, and a patron
    holding five loans. *)
Definition store_at_limit : db :=
  {| books := [mkBook 1 "1984" "George Orwell" "9999999999999" 5 0];
     borrows := repeat (mkBorrow "123456" 1 (Iso 0) (Iso 1209600) None) 5 |}.

(** A store with one book and one copy of it on the shelf. *)
Definition store_one_book : db :=
  {| books := [mkBook 1 "1984" "George Orwell" "9999999999999" 1 1];
     borrows := [] |}.

(** Text made of whitespace only (the empty text included). *)
Definition all_space (t : string) : bool :=
  forallb isspace_char (list_ascii_of_string t).

(** Two rows of the same book: everything but [available_copies] agrees. *)
Definition same_book (b b' : book) : Prop :=
  id b' = id b /\ title b' = title b /\ author b' = author b
  /\ isbn b' = isbn b /\ total_copies b' = total_copies b.

(** What admission guarantees of every stored book. *)
Definition admitted (b : book) : Prop :=
  title b <> "" /\ len (title b) <= 200
  /\ author b <> "" /\ len (author b) <= 100
  /\ len (isbn b) = 13 /\ isdigit (isbn b) = true
  /\ 0 < total_copies b.

(** A catalog as admission builds it: admitted books, no isbn twice. *)
Definition catalog_ok (s : db) : Prop :=
  (forall b, In b (books s) -> admitted b)
  /\ NoDup (map isbn (books s)).

(** A borrow record as [borrow_book_by_patron] writes it: a six-digit
    patron, and a due date fourteen days after the borrow date. *)
Definition well_dated (r : borrow) : Prop :=
  six_digits (patron_id r) = true
  /\ exists t, borrow_date r = Iso t /\ due_date r = Iso (plus_days t 14).

(** Every copy is on the shelf or on loan. *)
Definition balanced (s : db) : Prop :=
  forall b, In b (books s) ->
    available_copies b + loans_of (id b) (borrows s) = total_copies b.

(** A call that ended between its two writes. *)
Definition torn (r : outcome (bool * message)) : Prop :=
  r = Returns (false, Db_error_book_availability)
  \/ r = Returns (false, Db_error_availability).

(** Every active-loan count is within the borrowing limit. *)
Definition within_limit (s : db) : Prop :=
  forall p, get_patron_borrow_count p s <= 5.

(** Every borrow record is well dated and of a stored book. *)
Definition records_ok (s : db) : Prop :=
  forall r, In r (borrows s) ->
    well_dated r /\ get_book_by_id (book_id r) s <> None.

(** What one call of the service can do to the store, with the result it
    reports: nothing; admit a book; record a loan, taking a copy off the
    shelf or not; close a loan, putting a copy back or not. *)
Inductive effect (s : db) : outcome (bool * message) -> db -> Prop :=
| Eff_none r :
    succeeded r = false -> ~ torn r -> effect s r s
| Eff_add t a i n :
    valid_texts t a i = true -> 0 < n -> get_book_by_isbn i s = None ->
    strip t = t -> strip a = a -> strip i = i ->
    effect s (Returns (true, Book_added t))
      {| books := mkBook (max_id (books s) + 1) t a i n n :: books s;
         borrows := borrows s |}
| Eff_borrow p bid b now (took : bool) :
    six_digits p = true -> get_book_by_id bid s = Some b ->
    0 < available_copies b -> get_patron_borrow_count p s < 5 ->
    effect s
      (if took
       then Returns (true, Borrowed (title b) (date (plus_days now 14)))
       else Returns (false, Db_error_book_availability))
      {| books := if took then map (add_available bid (-1)) (books s)
                  else books s;
         borrows := mkBorrow p bid (Iso now) (Iso (plus_days now 14)) None
                    :: borrows s |}
| Eff_return p bid b now rows (back : bool) :
    get_book_by_id bid s = Some b ->
    close_latest p bid now (borrows s) = Some rows ->
    effect s
      (if back then Returns (true, Returned (title b))
       else Returns (false, Db_error_availability))
      {| books := if back then map (add_available bid 1) (books s)
                  else books s;
         borrows := rows |}.

(** The fee that [calculate_late_fee_for_book] computes for a positive
    number of days overdue: its lines from [tier1_days] to the rounding. *)
Definition late_fee_of_days (d : Z) : Q :=
  round2 (Qmin 15 (inject_Z (Z.min d 7) * (1 # 2)
                   + inject_Z (Z.max (d - 7) 0) * 1)
          + (1 # 1000000000))%Q.

(** The report that [calculate_late_fee_for_book] builds once it knows the
    days overdue. *)
Definition report_of_days (d : Z) : fee_report :=
  if d =? 0 then mkFee 0 0 on_time else mkFee (late_fee_of_days d) d late.

(** A borrow record as found later: who borrowed what and when is as it
    was, and a return date once set is still the same. *)
Definition kept (r r' : borrow) : Prop :=
  patron_id r' = patron_id r /\ book_id r' = book_id r
  /\ borrow_date r' = borrow_date r /\ due_date r' = due_date r
  /\ (forall t, return_date r = Some t -> return_date r' = Some t).

(** Stored texts carry no whitespace at either end. *)
Definition trimmed (s : db) : Prop :=
  forall b, In b (books s) ->
    strip (title b) = title b /\ strip (author b) = author b
    /\ strip (isbn b) = isbn b.

(** [row] is the most recently created active loan of ([p], [bid]) in a
    table kept newest row first: it is an active loan of the pair, and no
    row created after it is one. *)
Definition most_recent_active (p : string) (bid : Z) (rows : list borrow)
    (row : borrow) : Prop :=
  exists newer older,
    rows = (newer ++ row :: older)%list
    /\ (forall r, In r newer -> active_for p bid r = false)
    /\ active_for p bid row = true.

(** A store with a history: an active loan of one patron, and under it the
    returned loan of another patron for the same book. *)
Definition store_with_history : db :=
  {| books := [mkBook 1 "1984" "George Orwell" "9999999999999" 2 1];
     borrows := [mkBorrow "123456" 1 (Iso 172800) (Iso 1382400) None;
                 mkBorrow "654321" 1 (Iso 0) (Iso 1209600) (Some 86400)] |}.

(** The calls that leave a patron with two active loans of one book, the
    older due on day 14 and the newer on day 34. *)
Definition two_loans_of_one_book : list op :=
  [Add true (PyStr "1984") (PyStr "George Orwell")
     (PyStr "9999999999999") (PyInt 2);
   Borrow true true 0 (PyStr "123456") 1;
   Borrow true true (20 * 86400) (PyStr "123456") 1].

(** Case analysis on the scrutinee of the first [match] or [if] found. *)
Ltac break_match :=
  match goal with
  | |- context [match ?x with _ => _ end] => destruct x eqn:?
  | H : context [match ?x with _ => _ end] |- _ => destruct x eqn:?
  end.

(* ===================================================================== *)
(** ** Late fees                                                          *)
(* ===================================================================== *)

Lemma Qmin_cap (x : Q) : (15 <= x)%Q -> Qmin 15 x = 15%Q.
Proof.
  intros H. unfold Qmin, GenericMinMax.gmin.
  destruct (15 ?= x)%Q eqn:E; try reflexivity.
  apply Qle_alt in H. contradiction.
Qed.

(** From the nineteenth day on the cap applies, in the code's fee and in
    the specification's. *)
Lemma code_fee_capped (d : Z) :
  19 <= d ->
  Qmin 15 (inject_Z (Z.min d 7) * (1 # 2) + inject_Z (Z.max (d - 7) 0) * 1)%Q
  = 15%Q.
Proof.
  intros H. apply Qmin_cap.
  rewrite Z.min_r, Z.max_l by lia.
  unfold Qle, Qplus, Qmult, inject_Z; cbn [Qnum Qden]. lia.
Qed.

Lemma tiered_fee_capped (d : Z) : 19 <= d -> tiered_fee d = 15%Q.
Proof.
  intros H. unfold tiered_fee. apply Qmin_cap.
  rewrite Z.min_r, Z.max_l by lia.
  unfold Qle, Qplus, Qmult, inject_Z; cbn [Qnum Qden]. lia.
Qed.

(** The epsilon added before rounding never changes the rounded fee. *)
Lemma epsilon_harmless (d : Z) :
  0 < d ->
  (round2
     (Qmin 15 (inject_Z (Z.min d 7) * (1 # 2)
               + inject_Z (Z.max (d - 7) 0) * 1) + (1 # 1000000000))
   == round2 (tiered_fee d))%Q.
Proof.
  intros Hd.
  destruct (Z_lt_ge_dec d 19) as [Hlt | Hge].
  - assert (Hcases : d = 1 \/ d = 2 \/ d = 3 \/ d = 4 \/ d = 5 \/ d = 6
                     \/ d = 7 \/ d = 8 \/ d = 9 \/ d = 10 \/ d = 11
                     \/ d = 12 \/ d = 13 \/ d = 14 \/ d = 15 \/ d = 16
                     \/ d = 17 \/ d = 18) by lia.
    repeat (destruct Hcases as [-> | Hcases]; [vm_compute; reflexivity |]).
    subst d. vm_compute. reflexivity.
  - rewrite code_fee_capped, tiered_fee_capped by lia.
    vm_compute. reflexivity.
Qed.

(** Rounding leaves the specification's fee as it is: it is a whole number
    of half dollars. *)
Lemma round2_tiered_fee (d : Z) : 0 < d -> (round2 (tiered_fee d) == tiered_fee d)%Q.
Proof.
  intros Hd.
  destruct (Z_lt_ge_dec d 19) as [Hlt | Hge].
  - assert (Hcases : d = 1 \/ d = 2 \/ d = 3 \/ d = 4 \/ d = 5 \/ d = 6
                     \/ d = 7 \/ d = 8 \/ d = 9 \/ d = 10 \/ d = 11
                     \/ d = 12 \/ d = 13 \/ d = 14 \/ d = 15 \/ d = 16
                     \/ d = 17 \/ d = 18) by lia.
    repeat (destruct Hcases as [-> | Hcases]; [vm_compute; reflexivity |]).
    subst d. vm_compute. reflexivity.
  - rewrite tiered_fee_capped by lia. vm_compute. reflexivity.
Qed.

Lemma most_recent_active_found (p : string) (bid : Z) (rows : list borrow)
    (row : borrow) :
  most_recent_active p bid rows row ->
  find (active_for p bid) rows = Some row.
Proof.
  intros (newer & older & -> & Hnewer & Hrow).
  induction newer as [| r newer IH]; cbn [app find].
  - now rewrite Hrow.
  - rewrite (Hnewer r (or_introl eq_refl)).
    apply IH. intros r' Hr'. apply Hnewer. now right.
Qed.

(** C1, as the code has it. For the most recently created active loan of
    (patron_id, book_id), the one the lookup takes when the pair has
    several, with [d] the whole-day calendar difference between today and
    its due date floored at 0: when [d] is positive the report has status
    [late], [days_overdue = d] and the fee
    min(15.00, 0.50 * min(d,7) + 1.00 * max(d-7,0)) rounded to two
    decimals; when [d] is 0 it has status [on_time] and fee 0.0. The
    patron id is six digits, the book id one that the store can hold. *)
Theorem late_fee_tiers (today : datetime) (p : string) (book_id : pyobj)
    (bid : Z) (s : db) (row : borrow) (due : datetime) :
  six_digits p = true ->
  try_int book_id = Some bid ->
  in_int64 bid = true ->
  most_recent_active p bid (borrows s) row ->
  fromisoformat (due_date row) = Some due ->
  exists r,
    calculate_late_fee_for_book today (PyStr p) book_id s = Returns r /\
    days_overdue r = Z.max 0 (date today - date due) /\
    (0 < Z.max 0 (date today - date due) ->
       status r = late /\
       (fee_amount r == round2 (tiered_fee (Z.max 0 (date today - date due))))%Q) /\
    (Z.max 0 (date today - date due) = 0 ->
       status r = on_time /\ fee_amount r = 0%Q).
Proof.
  intros Hp Hb Hrange Hrow Hdue.
  apply most_recent_active_found in Hrow.
  unfold calculate_late_fee_for_book, patron_id_rejected, six_digits in *.
  assert (Htruthy : truthy (PyStr p) = true).
  { destruct p; [discriminate Hp | reflexivity]. }
  rewrite Htruthy. cbn [negb bind].
  apply andb_prop in Hp. destruct Hp as [Hd Hl]. rewrite Hd, Hl.
  cbn [negb orb str_of]. rewrite Hb. unfold latest_active.
  rewrite Hrange, Hrow. cbn [bind]. rewrite Hdue.
  set (d := Z.max 0 (date today - date due)).
  destruct (d =? 0) eqn:E.
  - apply Z.eqb_eq in E. eexists. split; [reflexivity |].
    cbn [days_overdue status fee_amount]. split; [lia |].
    split; [intros; lia | intros; split; reflexivity].
  - apply Z.eqb_neq in E. eexists. split; [reflexivity |].
    cbn [days_overdue status fee_amount]. split; [reflexivity |].
    split; [| intros; contradiction].
    intros Hpos. split; [reflexivity |]. apply epsilon_harmless. exact Hpos.
Qed.

Lemma late_fee_tiers_witness :
  exists r,
    calculate_late_fee_for_book (24 * 86400) (PyStr "654321") (PyStr " 1 ")
      (snd (run [Add true (PyStr "1984") (PyStr "George Orwell")
                   (PyStr "9999999999999") (PyInt 2);
                 Borrow true true 0 (PyStr "654321") 1;
                 Borrow true true 86400 (PyStr "123456") 1]
              Db.empty))
    = Returns r /\ days_overdue r = 10 /\ status r = late
    /\ (fee_amount r == 13 # 2)%Q.
Proof.
  destruct (late_fee_tiers (24 * 86400) "654321" (PyStr " 1 ") 1
              (snd (run [Add true (PyStr "1984") (PyStr "George Orwell")
                           (PyStr "9999999999999") (PyInt 2);
                         Borrow true true 0 (PyStr "654321") 1;
                         Borrow true true 86400 (PyStr "123456") 1]
                      Db.empty))
              (mkBorrow "654321" 1 (Iso 0) (Iso (14 * 86400)) None)
              (14 * 86400))
    as (r & Hr & Hd & Hlate & _).
  - reflexivity.
  - reflexivity.
  - reflexivity.
  - exists [mkBorrow "123456" 1 (Iso 86400) (Iso (15 * 86400)) None], [].
    split; [reflexivity |]. split; [| reflexivity].
    intros r [<- | []]. reflexivity.
  - reflexivity.
  - exists r. split; [exact Hr |]. split; [exact Hd |].
    destruct (Hlate ltac:(vm_compute; reflexivity)) as [Hs Hf].
    split; [exact Hs |]. rewrite Hf. vm_compute. reflexivity.
Defined.

(** C1, as stated, fails: nothing stops a patron from borrowing a book
    twice, and the lookup takes the newest loan only. With an older loan
    11 days overdue and a newer one not yet due, the report is [on_time]
    with fee 0.0. *)
Lemma older_loan_not_charged :
  In (mkBorrow "123456" 1 (Iso 0) (Iso (14 * 86400)) None)
     (borrows (snd (run two_loans_of_one_book Db.empty)))
  /\ active_for "123456" 1
       (mkBorrow "123456" 1 (Iso 0) (Iso (14 * 86400)) None) = true
  /\ Z.max 0 (date (25 * 86400) - date (14 * 86400)) = 11
  /\ calculate_late_fee_for_book (25 * 86400) (PyStr "123456") (PyInt 1)
       (snd (run two_loans_of_one_book Db.empty))
     = Returns (mkFee 0 0 on_time).
Proof.
  split; [right; left; reflexivity |].
  split; [reflexivity |]. split; reflexivity.
Qed.

Lemma patron_id_rejected_falsy (x : pyobj) :
  truthy x = false -> patron_id_rejected x = Returns true.
Proof. intros H. unfold patron_id_rejected. rewrite H. reflexivity. Qed.

Lemma patron_id_rejected_str (p : string) :
  patron_id_rejected (PyStr p) = Returns (negb (six_digits p)).
Proof.
  unfold patron_id_rejected, six_digits. destruct p as [| c p].
  - reflexivity.
  - cbn [truthy String.eqb negb]. now rewrite negb_andb.
Qed.

(** With a patron id that the format check can take and a book id that
    the store can hold, the calculation returns a report. *)
Lemma late_fee_returns (today : datetime) (patron_id book_id : pyobj) (s : db) :
  str_or_falsy patron_id ->
  (forall bid, try_int book_id = Some bid -> in_int64 bid = true) ->
  exists r, calculate_late_fee_for_book today patron_id book_id s = Returns r.
Proof.
  intros [Hf | [p ->]] Hrange; unfold calculate_late_fee_for_book.
  - rewrite (patron_id_rejected_falsy _ Hf). eexists; reflexivity.
  - rewrite patron_id_rejected_str. cbn [bind].
    destruct (negb (six_digits p)); [eexists; reflexivity |].
    destruct (try_int book_id) as [bid |]; [| eexists; reflexivity].
    unfold latest_active. rewrite (Hrange bid eq_refl). cbn [bind].
    repeat break_match; eexists; reflexivity.
Qed.

(** C8, as the code has it. For a [patron_id] that is a string or a falsy
    value such as [None], and a [book_id] that does not resolve to an
    integer outside the signed 64-bit range, the fee calculation raises
    nothing. When the [patron_id] is falsy or not exactly six numeric
    digits, whatever the [book_id], and when the [patron_id] is a string
    or falsy and the [book_id] does not resolve to an integer, it returns
    fee 0.0, 0 days overdue and status [no_active_loan]. *)
Theorem late_fee_fails_open (today : datetime) (patron_id book_id : pyobj)
    (s : db) :
  (str_or_falsy patron_id ->
   (forall bid, try_int book_id = Some bid -> in_int64 bid = true) ->
   exists r, calculate_late_fee_for_book today patron_id book_id s = Returns r)
  /\ (truthy patron_id = false
      \/ (exists p, patron_id = PyStr p /\ six_digits p = false) ->
      calculate_late_fee_for_book today patron_id book_id s
      = Returns no_loan_report)
  /\ (str_or_falsy patron_id -> try_int book_id = None ->
      calculate_late_fee_for_book today patron_id book_id s
      = Returns no_loan_report).
Proof.
  split; [apply late_fee_returns |]. split.
  - intros [Hf | (p & -> & Hsix)]; unfold calculate_late_fee_for_book.
    + rewrite (patron_id_rejected_falsy _ Hf). reflexivity.
    + rewrite patron_id_rejected_str, Hsix. reflexivity.
  - intros Hp Hint. unfold calculate_late_fee_for_book.
    destruct Hp as [Hf | [p ->]];
      [rewrite (patron_id_rejected_falsy _ Hf); reflexivity |].
    rewrite patron_id_rejected_str, Hint. cbn [bind].
    destruct (negb (six_digits p)); reflexivity.
Qed.

Lemma late_fee_fails_open_witness :
  (exists r,
     calculate_late_fee_for_book 0 (PyStr "123456") (PyStr "1_0")
       store_with_history = Returns r)
  /\ calculate_late_fee_for_book 0 (PyStr "12345") (PyInt (2 ^ 63))
       store_with_history = Returns no_loan_report
  /\ calculate_late_fee_for_book 0 (PyStr "123456") (PyStr "x1")
       store_with_history = Returns no_loan_report.
Proof.
  split; [| split].
  - apply (proj1 (late_fee_fails_open 0 (PyStr "123456") (PyStr "1_0")
                    store_with_history)).
    + right. exists "123456". reflexivity.
    + intros bid H. vm_compute in H. inversion H. reflexivity.
  - apply (proj1 (proj2 (late_fee_fails_open 0 (PyStr "12345")
                           (PyInt (2 ^ 63)) store_with_history))).
    right. exists "12345". split; reflexivity.
  - apply (proj2 (proj2 (late_fee_fails_open 0 (PyStr "123456") (PyStr "x1")
                           store_with_history))).
    + right. exists "123456". reflexivity.
    + reflexivity.
Defined.

(** C8, as stated, fails twice. A patron id passed as the integer 123456
    makes the format check raise [AttributeError]; and with a well-formed
    patron id, a book id of 2^63 makes the lookup raise [OverflowError],
    which the code does not catch. *)
Lemma late_fee_can_raise :
  calculate_late_fee_for_book 0 (PyInt 123456) (PyInt 1) Db.empty
  = Raises AttributeError
  /\ calculate_late_fee_for_book 0 (PyStr "123456") (PyInt (2 ^ 63)) Db.empty
     = Raises OverflowError.
Proof. split; reflexivity. Qed.

(* ===================================================================== *)
(** ** Catalog admission                                                  *)
(* ===================================================================== *)

Lemma or_empty_strip_none : or_empty_strip PyNone = Returns "".
Proof. reflexivity. Qed.

Lemma or_empty_strip_text (x : pyobj) :
  str_or_falsy x ->
  exists t, or_empty_strip x = Returns t /\ (truthy x = false -> t = "").
Proof.
  intros [Hf | [t ->]]; unfold or_empty_strip.
  - rewrite Hf. exists "". split; reflexivity.
  - destruct (truthy (PyStr t)).
    + eexists. split; [reflexivity | discriminate].
    + eexists. split; reflexivity.
Qed.

Lemma get_book_by_isbn_stored (i : string) (s : db) (b : book) :
  In b (books s) -> isbn b = i -> get_book_by_isbn i s <> None.
Proof.
  intros Hin Hi Hnone. unfold get_book_by_isbn in Hnone.
  apply (find_none _ _ Hnone) in Hin. cbv beta in Hin.
  rewrite Hi, String.eqb_refl in Hin. discriminate.
Qed.

(** The checks of [add_book_to_catalog] once the three texts are trimmed. *)
Lemma add_book_unfold (ok : bool) (title author isbn n : pyobj) (s : db)
    (t a i : string) :
  or_empty_strip title = Returns t ->
  or_empty_strip author = Returns a ->
  or_empty_strip isbn = Returns i ->
  add_book_to_catalog ok title author isbn n s =
  if String.eqb t "" then (Returns (false, Title_required), s)
  else if len t >? 200 then (Returns (false, Title_too_long), s)
  else if String.eqb a "" then (Returns (false, Author_required), s)
  else if len a >? 100 then (Returns (false, Author_too_long), s)
  else if negb (len i =? 13) || negb (isdigit i)
  then (Returns (false, Isbn_not_13_digits), s)
  else if negb (isinstance_int n) || (int_value n <=? 0)
  then (Returns (false, Copies_not_positive), s)
  else
    match get_book_by_isbn i s with
    | Some _ => (Returns (false, Isbn_exists), s)
    | None =>
        if ok
        then (Returns (true, Book_added t),
              {| books := mkBook (max_id (books s) + 1) t a i
                            (int_value n) (int_value n) :: books s;
                 borrows := borrows s |})
        else (Returns (false, Db_error_adding), s)
    end.
Proof.
  intros Ht Ha Hi. unfold add_book_to_catalog, insert_book.
  rewrite Ht, Ha, Hi. cbn [bind]. destruct ok; reflexivity.
Qed.

Lemma passes_validation_checks (t a i : string) (n : pyobj) :
  passes_validation t a i n = true ->
  String.eqb t "" = false /\ (len t >? 200) = false /\
  String.eqb a "" = false /\ (len a >? 100) = false /\
  negb (len i =? 13) || negb (isdigit i) = false /\
  negb (isinstance_int n) || (int_value n <=? 0) = false.
Proof.
  unfold passes_validation, valid_texts. intros H.
  repeat (apply andb_prop in H; destruct H as [H ?]).
  apply negb_true_iff in H.
  repeat match goal with
         | H : negb _ = true |- _ => apply negb_true_iff in H
         | H : (_ <=? _) = true |- _ => apply Z.leb_le in H
         | H : (_ <? _) = true |- _ => apply Z.ltb_lt in H
         end.
  repeat split; auto.
  - rewrite Z.gtb_ltb. apply Z.ltb_ge. assumption.
  - rewrite Z.gtb_ltb. apply Z.ltb_ge. assumption.
  - apply orb_false_iff. split; apply negb_false_iff; assumption.
  - apply orb_false_iff. split; [apply negb_false_iff; assumption |].
    apply Z.leb_gt. assumption.
Qed.

(** C4, as the code has it. When the trimmed isbn is the isbn of a stored
    book, a call with text (or [None]) arguments never succeeds and leaves
    the store as it was, reporting a validation error or the duplicate; it
    reports [DuplicateIsbnError] whenever title, author, isbn and
    total_copies pass the field validation, which is checked first. *)
Theorem duplicate_isbn_rejected (ok : bool) (title author isbn n : pyobj)
    (s : db) (t a i : string) (b : book) :
  or_empty_strip title = Returns t ->
  or_empty_strip author = Returns a ->
  or_empty_strip isbn = Returns i ->
  In b (books s) -> Db.isbn b = i ->
  (exists m, add_book_to_catalog ok title author isbn n s
             = (Returns (false, m), s)
             /\ (error_of m = Some ValidationError
                 \/ error_of m = Some DuplicateIsbnError))
  /\ (passes_validation t a i n = true ->
      add_book_to_catalog ok title author isbn n s
      = (Returns (false, Isbn_exists), s)).
Proof.
  intros Ht Ha Hi Hin Hb.
  rewrite (add_book_unfold ok title author isbn n s t a i Ht Ha Hi).
  pose proof (get_book_by_isbn_stored i s b Hin Hb) as Hsome.
  split.
  - do 6 (break_match;
          [eexists; split; [reflexivity | cbn; auto] |]).
    destruct (get_book_by_isbn i s); [| contradiction].
    eexists; split; [reflexivity | cbn; auto].
  - intros Hv. apply passes_validation_checks in Hv.
    destruct Hv as (-> & -> & -> & -> & -> & ->).
    destruct (get_book_by_isbn i s); [reflexivity | contradiction].
Qed.

Lemma duplicate_isbn_rejected_witness :
  add_book_to_catalog true (PyStr "Animal Farm") (PyStr "George Orwell")
    (PyStr " 9999999999999 ") (PyInt 1)
    (snd (add_book_to_catalog true (PyStr "1984") (PyStr "George Orwell")
            (PyStr "9999999999999") (PyInt 1) Db.empty))
  = (Returns (false, Isbn_exists),
     snd (add_book_to_catalog true (PyStr "1984") (PyStr "George Orwell")
            (PyStr "9999999999999") (PyInt 1) Db.empty)).
Proof.
  apply (duplicate_isbn_rejected true (PyStr "Animal Farm")
           (PyStr "George Orwell") (PyStr " 9999999999999 ") (PyInt 1)
           (snd (add_book_to_catalog true (PyStr "1984")
                   (PyStr "George Orwell") (PyStr "9999999999999")
                   (PyInt 1) Db.empty))
           "Animal Farm" "George Orwell" "9999999999999"
           (mkBook 1 "1984" "George Orwell" "9999999999999" 1 1)).
  - reflexivity.
  - reflexivity.
  - reflexivity.
  - left. reflexivity.
  - reflexivity.
  - reflexivity.
Defined.

(** C4, as stated, fails: with the isbn of a stored book and an empty
    title the call reports the validation error of the title, not the
    duplicate. *)
Lemma duplicate_isbn_masked_by_validation :
  fst (add_book_to_catalog true (PyStr "") (PyStr "George Orwell")
         (PyStr "9999999999999") (PyInt 1)
         (snd (add_book_to_catalog true (PyStr "1984")
                 (PyStr "George Orwell") (PyStr "9999999999999")
                 (PyInt 1) Db.empty)))
  = Returns (false, Title_required)
  /\ error_of Title_required <> Some DuplicateIsbnError.
Proof. split; [reflexivity | discriminate]. Qed.

(** C9. [None] for title, author or isbn is coerced to the empty string
    before trimming, so a call with one of them [None], the other two
    being strings (or falsy as well), raises nothing: it returns false with
    a validation reason and leaves the store as it was. *)
Theorem none_is_empty_text (ok : bool) (title author isbn n : pyobj) (s : db) :
  str_or_falsy title -> str_or_falsy author -> str_or_falsy isbn ->
  title = PyNone \/ author = PyNone \/ isbn = PyNone ->
  or_empty_strip PyNone = Returns ""
  /\ exists m, add_book_to_catalog ok title author isbn n s
               = (Returns (false, m), s)
               /\ error_of m = Some ValidationError.
Proof.
  intros Ht Ha Hi Hnone. split; [reflexivity |].
  destruct (or_empty_strip_text title Ht) as (t & Et & Nt).
  destruct (or_empty_strip_text author Ha) as (a & Ea & Na).
  destruct (or_empty_strip_text isbn Hi) as (i & Ei & Ni).
  rewrite (add_book_unfold ok title author isbn n s t a i Et Ea Ei).
  destruct Hnone as [H | [H | H]].
  - subst title. rewrite (Nt eq_refl). eexists; split; reflexivity.
  - subst author. rewrite (Na eq_refl).
    repeat (break_match; [eexists; split; reflexivity |]).
    discriminate.
  - subst isbn. rewrite (Ni eq_refl).
    do 4 (break_match; [eexists; split; reflexivity |]).
    eexists; split; reflexivity.
Qed.

Lemma none_is_empty_text_witness :
  exists m, add_book_to_catalog true (PyStr "Refactoring") PyNone
              (PyStr "1234567890123") (PyInt 2) Db.empty
            = (Returns (false, m), Db.empty)
            /\ error_of m = Some ValidationError.
Proof.
  apply (none_is_empty_text true (PyStr "Refactoring") PyNone
           (PyStr "1234567890123") (PyInt 2) Db.empty).
  - right. exists "Refactoring". reflexivity.
  - left. reflexivity.
  - right. exists "1234567890123". reflexivity.
  - right. left. reflexivity.
Defined.

(** C10. The boolean [True] passes the positive-integer check
    ([bool] is a subclass of [int], and [True > 0]): with otherwise valid,
    unique inputs and a write that goes through, the call succeeds and
    creates a book with total_copies = available_copies = 1. *)
Theorem true_counts_as_one_copy (title author isbn : pyobj) (s : db)
    (t a i : string) :
  or_empty_strip title = Returns t ->
  or_empty_strip author = Returns a ->
  or_empty_strip isbn = Returns i ->
  valid_texts t a i = true ->
  get_book_by_isbn i s = None ->
  add_book_to_catalog true title author isbn (PyBool true) s
  = (Returns (true, Book_added t),
     {| books := mkBook (max_id (books s) + 1) t a i 1 1 :: books s;
        borrows := borrows s |}).
Proof.
  intros Ht Ha Hi Hv Hnew.
  rewrite (add_book_unfold true title author isbn (PyBool true) s t a i Ht Ha Hi).
  assert (Hv' : passes_validation t a i (PyBool true) = true).
  { unfold passes_validation. rewrite Hv. reflexivity. }
  apply passes_validation_checks in Hv'.
  destruct Hv' as (-> & -> & -> & -> & -> & ->).
  rewrite Hnew. reflexivity.
Qed.

Lemma true_counts_as_one_copy_witness :
  add_book_to_catalog true (PyStr "Clean Code") (PyStr "Robert Martin")
    (PyStr "9780132350884") (PyBool true) Db.empty
  = (Returns (true, Book_added "Clean Code"),
     {| books := [mkBook 1 "Clean Code" "Robert Martin" "9780132350884" 1 1];
        borrows := [] |}).
Proof.
  apply (true_counts_as_one_copy (PyStr "Clean Code") (PyStr "Robert Martin")
           (PyStr "9780132350884") Db.empty
           "Clean Code" "Robert Martin" "9780132350884");
    reflexivity.
Defined.

(* ===================================================================== *)
(** ** Borrowing and returning                                            *)
(* ===================================================================== *)

(** [borrow_book_by_patron] once the patron id has passed its check. *)
Lemma borrow_unfold (k1 k2 : bool) (now : datetime) (patron_id : pyobj)
    (bid : Z) (s : db) :
  patron_id_rejected patron_id = Returns false ->
  borrow_book_by_patron k1 k2 now patron_id bid s =
  match get_book_by_id bid s with
  | None => (Returns (false, Book_not_found), s)
  | Some b =>
      if available_copies b <=? 0 then (Returns (false, Not_available), s)
      else if get_patron_borrow_count (str_of patron_id) s >=? 5
      then (Returns (false, Limit_reached), s)
      else if negb (in_datetime_range (plus_days now 14))
      then (Raises OverflowError, s)
      else if negb (k1 && in_int64 bid)
      then (Returns (false, Db_error_borrow_record), s)
      else
        let row := mkBorrow (str_of patron_id) bid (Iso now)
                     (Iso (plus_days now 14)) None in
        if negb k2
        then (Returns (false, Db_error_book_availability),
              {| books := books s; borrows := row :: borrows s |})
        else (Returns (true, Borrowed (title b) (date (plus_days now 14))),
              {| books := map (add_available bid (-1)) (books s);
                 borrows := row :: borrows s |})
  end.
Proof.
  intros Hp. unfold borrow_book_by_patron. rewrite Hp.
  destruct (get_book_by_id bid s) as [b |]; [| reflexivity].
  destruct (available_copies b <=? 0); [reflexivity |].
  destruct (get_patron_borrow_count (str_of patron_id) s >=? 5);
    [reflexivity |].
  unfold add_timedelta_days.
  destruct (in_datetime_range (plus_days now 14)); [| reflexivity].
  unfold insert_borrow_record, update_book_availability.
  destruct k1, (in_int64 bid), k2; reflexivity.
Qed.

(** [return_book_by_patron] once the patron id has passed its check and
    the book id has been resolved. *)
Lemma return_unfold (k1 k2 : bool) (now : datetime) (patron_id book_id : pyobj)
    (bid : Z) (s : db) :
  patron_id_rejected patron_id = Returns false ->
  try_int book_id = Some bid ->
  return_book_by_patron k1 k2 now patron_id book_id s =
  match get_book_by_id bid s with
  | None => (Returns (false, Book_not_found), s)
  | Some b =>
      if negb k1 then (Returns (false, No_active_borrow), s)
      else
        match close_latest (str_of patron_id) bid now (borrows s) with
        | None => (Returns (false, No_active_borrow), s)
        | Some rows =>
            if negb k2
            then (Returns (false, Db_error_availability),
                  {| books := books s; borrows := rows |})
            else (Returns (true, Returned (title b)),
                  {| books := map (add_available bid 1) (books s);
                     borrows := rows |})
        end
  end.
Proof.
  intros Hp Hb. unfold return_book_by_patron. rewrite Hp, Hb.
  destruct (get_book_by_id bid s) as [b |]; [| reflexivity].
  unfold update_borrow_record_return_date, update_book_availability.
  destruct k1; [| reflexivity]. cbn [negb].
  destruct (close_latest (str_of patron_id) bid now (borrows s));
    [| reflexivity].
  destruct k2; reflexivity.
Qed.

(** C6. [borrow_book_by_patron] checks, in this order, the format of the
    patron id, the existence of the book, [available_copies > 0] and the
    count of active loans of the patron being below 5; the first check
    that fails decides the error, whatever the later ones would say, and
    the store is left as it was. *)
Theorem borrow_checks_in_order (k1 k2 : bool) (now : datetime)
    (patron_id : pyobj) (bid : Z) (s : db) :
  (patron_id_rejected patron_id = Returns true ->
   borrow_book_by_patron k1 k2 now patron_id bid s
   = (Returns (false, Invalid_patron_id), s))
  /\ (patron_id_rejected patron_id = Returns false ->
      get_book_by_id bid s = None ->
      borrow_book_by_patron k1 k2 now patron_id bid s
      = (Returns (false, Book_not_found), s))
  /\ (patron_id_rejected patron_id = Returns false ->
      forall b, get_book_by_id bid s = Some b ->
      available_copies b <= 0 ->
      borrow_book_by_patron k1 k2 now patron_id bid s
      = (Returns (false, Not_available), s))
  /\ (patron_id_rejected patron_id = Returns false ->
      forall b, get_book_by_id bid s = Some b ->
      0 < available_copies b ->
      5 <= get_patron_borrow_count (str_of patron_id) s ->
      borrow_book_by_patron k1 k2 now patron_id bid s
      = (Returns (false, Limit_reached), s)).
Proof.
  split; [| split; [| split]].
  - intros Hp. unfold borrow_book_by_patron. rewrite Hp. reflexivity.
  - intros Hp Hb. rewrite borrow_unfold, Hb by assumption. reflexivity.
  - intros Hp b Hb Ha. rewrite borrow_unfold, Hb by assumption.
    apply Z.leb_le in Ha. rewrite Ha. reflexivity.
  - intros Hp b Hb Ha Hc. rewrite borrow_unfold, Hb by assumption.
    apply Z.leb_gt in Ha. rewrite Ha.
    apply Z.geb_le in Hc. rewrite Hc. reflexivity.
Qed.

(** C7. With a valid patron id, an existing book and no active borrow
    record of the pair, [return_book_by_patron] reports [NoActiveLoan] and
    leaves the whole store, so every counter and every borrow record, as
    it was. *)
Theorem return_without_loan (k1 k2 : bool) (now : datetime) (p : string)
    (book_id : pyobj) (bid : Z) (b : book) (s : db) :
  six_digits p = true ->
  try_int book_id = Some bid ->
  get_book_by_id bid s = Some b ->
  (forall r, In r (borrows s) -> active_for p bid r = false) ->
  return_book_by_patron k1 k2 now (PyStr p) book_id s
  = (Returns (false, No_active_borrow), s)
  /\ error_of No_active_borrow = Some NoActiveLoan.
Proof.
  intros Hp Hi Hb Hnone. split; [| reflexivity].
  rewrite (return_unfold k1 k2 now (PyStr p) book_id bid s).
  - rewrite Hb. destruct k1; [| reflexivity]. cbn [negb str_of].
    assert (Hc : close_latest p bid now (borrows s) = None).
    { induction (borrows s) as [| r rs IH]; [reflexivity |].
      cbn [close_latest]. rewrite (Hnone r (or_introl eq_refl)).
      rewrite IH; [reflexivity |].
      intros r' Hr'. apply Hnone. right. exact Hr'. }
    rewrite Hc. reflexivity.
  - rewrite patron_id_rejected_str, Hp. reflexivity.
  - exact Hi.
Qed.

(** C3, as the code has it. When [borrow_book_by_patron] reports a
    persistence error, no availability counter has changed. If the record
    insertion failed the whole store is as it was; if the decrement failed
    the record inserted by this call is in the store: the two writes are
    separate, and nothing undoes the first. *)
Theorem borrow_persistence_error (k1 k2 : bool) (now : datetime)
    (patron_id : pyobj) (bid : Z) (s s' : db) (m : message) :
  borrow_book_by_patron k1 k2 now patron_id bid s = (Returns (false, m), s') ->
  error_of m = Some PersistenceError ->
  books s' = books s
  /\ ((m = Db_error_borrow_record /\ s' = s)
      \/ (m = Db_error_book_availability /\
          borrows s' = mkBorrow (str_of patron_id) bid (Iso now)
                         (Iso (plus_days now 14)) None :: borrows s)).
Proof.
  intros Hrun Herr.
  destruct (patron_id_rejected patron_id) as [[|] | e] eqn:Hp.
  - unfold borrow_book_by_patron in Hrun. rewrite Hp in Hrun.
    inversion Hrun; subst. discriminate Herr.
  - rewrite borrow_unfold in Hrun by assumption.
    repeat break_match; inversion Hrun; subst; try discriminate Herr.
    + split; [reflexivity |]. left. split; reflexivity.
    + split; [reflexivity |]. right. split; reflexivity.
  - unfold borrow_book_by_patron in Hrun. rewrite Hp in Hrun.
    discriminate Hrun.
Qed.

Lemma borrow_checks_in_order_witness :
  borrow_book_by_patron true true 0 (PyStr "12a456") 7 store_at_limit
  = (Returns (false, Invalid_patron_id), store_at_limit)
  /\ borrow_book_by_patron true true 0 (PyStr "123456") 7 store_at_limit
     = (Returns (false, Book_not_found), store_at_limit)
  /\ borrow_book_by_patron true true 0 (PyStr "123456") 1 store_at_limit
     = (Returns (false, Not_available), store_at_limit)
  /\ borrow_book_by_patron true true 0 (PyStr "123456") 1
       {| books := [mkBook 1 "1984" "George Orwell" "9999999999999" 6 1];
          borrows := borrows store_at_limit |}
     = (Returns (false, Limit_reached),
        {| books := [mkBook 1 "1984" "George Orwell" "9999999999999" 6 1];
           borrows := borrows store_at_limit |}).
Proof.
  split; [| split; [| split]].
  - apply (proj1 (borrow_checks_in_order true true 0 (PyStr "12a456") 7
                    store_at_limit)).
    reflexivity.
  - apply (proj1 (proj2 (borrow_checks_in_order true true 0 (PyStr "123456") 7
                           store_at_limit))); reflexivity.
  - apply (proj1 (proj2 (proj2
             (borrow_checks_in_order true true 0 (PyStr "123456") 1
                store_at_limit)))
             eq_refl
             (mkBook 1 "1984" "George Orwell" "9999999999999" 5 0) eq_refl).
    cbn. lia.
  - apply (proj2 (proj2 (proj2
             (borrow_checks_in_order true true 0 (PyStr "123456") 1
                {| books := [mkBook 1 "1984" "George Orwell"
                               "9999999999999" 6 1];
                   borrows := borrows store_at_limit |})))
             eq_refl
             (mkBook 1 "1984" "George Orwell" "9999999999999" 6 1) eq_refl).
    + cbn. lia.
    + vm_compute. discriminate.
Defined.

Lemma return_without_loan_witness :
  return_book_by_patron true true 259200 (PyStr "654321") (PyStr " 1 ")
    store_with_history
  = (Returns (false, No_active_borrow), store_with_history)
  /\ error_of No_active_borrow = Some NoActiveLoan.
Proof.
  apply (return_without_loan true true 259200 "654321" (PyStr " 1 ") 1
           (mkBook 1 "1984" "George Orwell" "9999999999999" 2 1)
           store_with_history).
  - reflexivity.
  - reflexivity.
  - reflexivity.
  - intros r [<- | [<- | []]]; reflexivity.
Defined.

Lemma borrow_persistence_error_witness :
  books (snd (borrow_book_by_patron true false 0 (PyStr "123456") 1
                store_one_book))
  = books store_one_book.
Proof.
  apply (borrow_persistence_error true false 0 (PyStr "123456") 1
           store_one_book
           (snd (borrow_book_by_patron true false 0 (PyStr "123456") 1
                   store_one_book))
           Db_error_book_availability).
  - reflexivity.
  - reflexivity.
Defined.

(** C3, as stated, fails: when the record insertion goes through and the
    decrement does not, the call reports the persistence error and the
    store holds the new borrow record. *)
Lemma borrow_failure_keeps_record :
  fst (borrow_book_by_patron true false 0 (PyStr "123456") 1 store_one_book)
  = Returns (false, Db_error_book_availability)
  /\ error_of Db_error_book_availability = Some PersistenceError
  /\ borrows (snd (borrow_book_by_patron true false 0 (PyStr "123456") 1
                     store_one_book))
     = [mkBorrow "123456" 1 (Iso 0) (Iso 1209600) None]
  /\ snd (borrow_book_by_patron true false 0 (PyStr "123456") 1 store_one_book)
     <> store_one_book.
Proof.
  split; [reflexivity |]. split; [reflexivity |]. split; [reflexivity |].
  intros H. apply (f_equal borrows) in H. discriminate H.
Qed.

(** *** The availability counter *)

Lemma add_available_id (bid delta : Z) (b : book) :
  id (add_available bid delta b) = id b.
Proof. unfold add_available. destruct (id b =? bid); reflexivity. Qed.

Lemma map_id_add_available (bid delta : Z) (bs : list book) :
  map id (map (add_available bid delta) bs) = map id bs.
Proof.
  induction bs as [| b bs IH]; [reflexivity |].
  cbn [map]. now rewrite add_available_id, IH.
Qed.

Lemma get_book_by_id_found (bid : Z) (s : db) (b : book) :
  get_book_by_id bid s = Some b -> In b (books s) /\ id b = bid.
Proof.
  intros H. apply find_some in H. destruct H as [Hin Hid].
  split; [exact Hin | now apply Z.eqb_eq].
Qed.

Lemma get_book_by_id_update (bid bid' delta : Z) (bs : list book)
    (rows rows' : list borrow) :
  get_book_by_id bid {| books := map (add_available bid' delta) bs;
                        borrows := rows' |}
  = option_map (add_available bid' delta)
      (get_book_by_id bid {| books := bs; borrows := rows |}).
Proof.
  unfold get_book_by_id. cbn [books].
  induction bs as [| b bs IH]; [reflexivity |].
  cbn [map find]. rewrite add_available_id.
  destruct (id b =? bid); [reflexivity | exact IH].
Qed.

Lemma available_of_update (bid delta : Z) (s : db) (rows : list borrow) :
  available_of bid {| books := map (add_available bid delta) (books s);
                      borrows := rows |}
  = option_map (fun a => a + delta) (available_of bid s).
Proof.
  unfold available_of.
  rewrite (get_book_by_id_update bid bid delta (books s) (borrows s) rows).
  destruct s as [bs rs]. cbn [books borrows].
  destruct (get_book_by_id bid {| books := bs; borrows := rs |}) as [b |] eqn:E;
    [| reflexivity].
  apply get_book_by_id_found in E. destruct E as [_ E].
  cbn [option_map]. unfold add_available.
  apply Z.eqb_eq in E. rewrite E. reflexivity.
Qed.

Lemma available_of_update_other (bid bid' delta : Z) (s : db)
    (rows : list borrow) :
  bid <> bid' ->
  available_of bid {| books := map (add_available bid' delta) (books s);
                      borrows := rows |}
  = available_of bid s.
Proof.
  intros Hne. unfold available_of.
  rewrite (get_book_by_id_update bid bid' delta (books s) (borrows s) rows).
  destruct s as [bs rs]. cbn [books borrows].
  destruct (get_book_by_id bid {| books := bs; borrows := rs |}) as [b |] eqn:E;
    [| reflexivity].
  apply get_book_by_id_found in E. destruct E as [_ E].
  cbn [option_map]. unfold add_available.
  assert (Hb : (id b =? bid') = false) by (apply Z.eqb_neq; congruence).
  rewrite Hb. reflexivity.
Qed.

(** What a successful borrow found and did. *)
Lemma borrow_success (k1 k2 : bool) (now : datetime) (patron_id : pyobj)
    (bid : Z) (s s' : db) (m : message) :
  borrow_book_by_patron k1 k2 now patron_id bid s = (Returns (true, m), s') ->
  exists b, get_book_by_id bid s = Some b /\ 0 < available_copies b /\
    s' = {| books := map (add_available bid (-1)) (books s);
            borrows := mkBorrow (str_of patron_id) bid (Iso now)
                         (Iso (plus_days now 14)) None :: borrows s |}.
Proof.
  intros Hrun.
  destruct (patron_id_rejected patron_id) as [[|] | e] eqn:Hp;
    try (unfold borrow_book_by_patron in Hrun; rewrite Hp in Hrun;
         discriminate Hrun).
  rewrite borrow_unfold in Hrun by assumption.
  destruct (get_book_by_id bid s) as [b |] eqn:Hg; [| discriminate Hrun].
  destruct (available_copies b <=? 0) eqn:Ha; [discriminate Hrun |].
  repeat break_match; inversion Hrun; subst.
  exists b. split; [reflexivity |]. split; [| reflexivity].
  now apply Z.leb_gt.
Qed.

(** What a successful return found and did. *)
Lemma return_success (k1 k2 : bool) (now : datetime) (patron_id book_id : pyobj)
    (s s' : db) (m : message) :
  return_book_by_patron k1 k2 now patron_id book_id s
  = (Returns (true, m), s') ->
  exists bid b rows,
    try_int book_id = Some bid /\ get_book_by_id bid s = Some b /\
    close_latest (str_of patron_id) bid now (borrows s) = Some rows /\
    s' = {| books := map (add_available bid 1) (books s); borrows := rows |}.
Proof.
  intros Hrun.
  destruct (patron_id_rejected patron_id) as [[|] | e] eqn:Hp;
    try (unfold return_book_by_patron in Hrun; rewrite Hp in Hrun;
         discriminate Hrun).
  destruct (try_int book_id) as [bid |] eqn:Hb.
  - rewrite (return_unfold k1 k2 now patron_id book_id bid s Hp Hb) in Hrun.
    destruct (get_book_by_id bid s) as [b |] eqn:Hg; [| discriminate Hrun].
    destruct (negb k1); [discriminate Hrun |].
    destruct (close_latest (str_of patron_id) bid now (borrows s))
      as [rows |] eqn:Hc; [| discriminate Hrun].
    destruct (negb k2); inversion Hrun; subst.
    exists bid, b, rows. repeat split; assumption.
  - unfold return_book_by_patron in Hrun. rewrite Hp, Hb in Hrun.
    discriminate Hrun.
Qed.

(** One borrow and the return that follows it. *)
Lemma borrow_then_return (k1 k2 k3 k4 : bool) (t1 t2 : datetime)
    (patron_id book_id : pyobj) (bid : Z) (s s1 s2 : db) (m1 m2 : message) :
  borrow_book_by_patron k1 k2 t1 patron_id bid s = (Returns (true, m1), s1) ->
  try_int book_id = Some bid ->
  return_book_by_patron k3 k4 t2 patron_id book_id s1
  = (Returns (true, m2), s2) ->
  available_of bid s2 = available_of bid s.
Proof.
  intros Hb Hi Hr.
  apply borrow_success in Hb. destruct Hb as (b & Hget & _ & ->).
  apply return_success in Hr.
  destruct Hr as (bid' & b' & rows & Hi' & _ & _ & ->).
  rewrite Hi in Hi'. inversion Hi'; subst bid'.
  rewrite !available_of_update.
  destruct (available_of bid s) as [a |]; [| reflexivity].
  cbn [option_map]. f_equal. lia.
Qed.

Lemma run_cons (o : op) (ops : list op) (s : db) :
  run (o :: ops) s
  = (fst (step o s) :: fst (run ops (snd (step o s))),
     snd (run ops (snd (step o s)))).
Proof.
  cbn [run]. destruct (step o s) as [r s1]. cbn [fst snd].
  destruct (run ops s1) as [rs s2]. reflexivity.
Qed.

Lemma succeeded_inv (r : outcome (bool * message)) :
  succeeded r = true -> exists m, r = Returns (true, m).
Proof.
  destruct r as [[[|] m] | e]; try discriminate. intros _. now exists m.
Qed.

(** C5. When every borrow of (patron_id, book_id) and every return of the
    same pair in a run of N borrow-then-return rounds succeeds, the book's
    available_copies after the run is its value before the first borrow;
    one round is the case N = 1. *)
Theorem borrow_return_restores (p : string) (bid : Z)
    (ts : list ((bool * bool * datetime) * (bool * bool * datetime)))
    (s : db) :
  forallb succeeded (fst (run (rounds p bid ts) s)) = true ->
  available_of bid (snd (run (rounds p bid ts) s)) = available_of bid s.
Proof.
  revert s. induction ts as [| [[[k1 k2] t1] [[k3 k4] t2]] ts IH]; intros s H.
  - reflexivity.
  - cbn [rounds] in *. rewrite !run_cons in *. cbn [fst snd forallb] in *.
    apply andb_prop in H. destruct H as [H1 H].
    apply andb_prop in H. destruct H as [H2 H].
    rewrite (IH _ H).
    apply succeeded_inv in H1. destruct H1 as [m1 H1].
    apply succeeded_inv in H2. destruct H2 as [m2 H2].
    cbn [step] in *.
    eapply borrow_then_return with (book_id := PyInt bid).
    + rewrite <- H1. apply surjective_pairing.
    + reflexivity.
    + rewrite <- H2. apply surjective_pairing.
Qed.

Lemma borrow_return_restores_witness :
  available_of 1
    (snd (run (rounds "123456" 1
                 [((true, true, 0), (true, true, 86400));
                  ((true, true, 172800), (true, true, 259200))])
            store_one_book))
  = Some 1.
Proof.
  rewrite (borrow_return_restores "123456" 1
             [((true, true, 0), (true, true, 86400));
              ((true, true, 172800), (true, true, 259200))]
             store_one_book).
  - reflexivity.
  - reflexivity.
Defined.

(** *** The bounds of the availability counter *)

Lemma loans_of_cons (bid : Z) (r : borrow) (rows : list borrow) :
  loans_of bid (r :: rows)
  = (if on_loan bid r then 1 else 0) + loans_of bid rows.
Proof.
  unfold loans_of. cbn [filter]. destruct (on_loan bid r).
  - cbn [List.length]. lia.
  - lia.
Qed.


Lemma loans_of_unknown (bid : Z) (rows : list borrow) :
  (forall r, In r rows -> book_id r <> bid) -> loans_of bid rows = 0.
Proof.
  induction rows as [| r rows IH]; intros H; [reflexivity |].
  rewrite loans_of_cons, IH by (intros r' Hr'; apply H; now right).
  unfold on_loan.
  assert (E : (book_id r =? bid) = false)
    by (apply Z.eqb_neq, H; now left).
  rewrite E. reflexivity.
Qed.

(** Closing a loan takes one loan off its book and leaves the loans of the
    other books, and the book of every row, as they were. *)
Lemma close_latest_loans (p : string) (bid : Z) (now : datetime)
    (rows rows' : list borrow) :
  close_latest p bid now rows = Some rows' ->
  loans_of bid rows' = loans_of bid rows - 1
  /\ (forall bid', bid' <> bid -> loans_of bid' rows' = loans_of bid' rows)
  /\ map book_id rows' = map book_id rows.
Proof.
  revert rows'. induction rows as [| r rows IH]; intros rows' H.
  - discriminate H.
  - cbn [close_latest] in H. destruct (active_for p bid r) eqn:Ha.
    + inversion H; subst rows'; clear H.
      unfold active_for in Ha.
      apply andb_prop in Ha. destruct Ha as [Ha Hret].
      apply andb_prop in Ha. destruct Ha as [_ Hbid].
      split; [| split].
      * rewrite !loans_of_cons. unfold on_loan. cbn [book_id return_date].
        rewrite Hbid, Hret. cbn [andb]. lia.
      * intros bid' Hne. apply Z.eqb_eq in Hbid.
        rewrite !loans_of_cons. unfold on_loan. cbn [book_id return_date].
        assert (E : (book_id r =? bid') = false)
          by (apply Z.eqb_neq; congruence).
        rewrite E. reflexivity.
      * reflexivity.
    + destruct (close_latest p bid now rows) as [rows1 |]; [| discriminate H].
      inversion H; subst rows'; clear H.
      destruct (IH rows1 eq_refl) as (H1 & H2 & H3).
      split; [| split].
      * rewrite !loans_of_cons, H1. lia.
      * intros bid' Hne. rewrite !loans_of_cons, (H2 bid' Hne). reflexivity.
      * cbn [map]. now rewrite H3.
Qed.

Lemma id_le_max_id (bs : list book) (b : book) :
  In b bs -> id b <= max_id bs.
Proof.
  induction bs as [| b0 bs IH]; intros H; [destruct H |].
  unfold max_id in *. cbn [fold_right]. destruct H as [-> | H].
  - lia.
  - specialize (IH H). lia.
Qed.

Lemma unique_by_id (bs : list book) (b b' : book) :
  NoDup (map id bs) -> In b bs -> In b' bs -> id b = id b' -> b = b'.
Proof.
  induction bs as [| b0 bs IH]; intros Hnd Hb Hb' Hid; [destruct Hb |].
  cbn [map] in Hnd. inversion Hnd as [| x l Hnotin Hnd']; subst.
  destruct Hb as [-> | Hb], Hb' as [-> | Hb'].
  - reflexivity.
  - exfalso. apply Hnotin. rewrite Hid. now apply in_map.
  - exfalso. apply Hnotin. rewrite <- Hid. now apply in_map.
  - now apply IH.
Qed.

Lemma known_after_update (bid delta : Z) (bs : list book) (x : Z) :
  (exists b, In b bs /\ id b = x) ->
  exists b, In b (map (add_available bid delta) bs) /\ id b = x.
Proof.
  intros (b & Hin & Hid). exists (add_available bid delta b).
  split; [now apply in_map | now rewrite add_available_id].
Qed.

Lemma known_of_rows (bs : list book) (rows rows' : list borrow) :
  map book_id rows' = map book_id rows ->
  (forall r, In r rows -> exists b, In b bs /\ id b = book_id r) ->
  forall r, In r rows' -> exists b, In b bs /\ id b = book_id r.
Proof.
  intros Hmap H r Hr.
  apply (in_map book_id) in Hr. rewrite Hmap in Hr.
  apply in_map_iff in Hr. destruct Hr as (r0 & <- & Hr0). now apply H.
Qed.

Lemma consistent_empty : consistent Db.empty.
Proof.
  constructor; cbn.
  - constructor.
  - intros r [].
  - intros b [].
Qed.


(** A new book with its copies on the shelf. *)
Lemma consistent_insert (s : db) (t a i : string) (n : Z) :
  consistent s -> 0 < n ->
  consistent {| books := mkBook (max_id (books s) + 1) t a i n n :: books s;
                borrows := borrows s |}.
Proof.
  intros [Hnd Hknown Hstock] Hn.
  assert (Hfresh : forall b, In b (books s) -> id b <> max_id (books s) + 1).
  { intros b Hb. pose proof (id_le_max_id _ _ Hb). lia. }
  constructor; cbn [books borrows].
  - cbn [map id]. constructor; [| exact Hnd].
    intros Hin. apply in_map_iff in Hin. destruct Hin as (b & Hid & Hb).
    now apply (Hfresh b Hb).
  - intros r Hr. destruct (Hknown r Hr) as (b & Hb & Hid).
    exists b. split; [now right | exact Hid].
  - intros b [<- | Hb].
    + cbn [available_copies total_copies id].
      rewrite loans_of_unknown; [lia |].
      intros r Hr. destruct (Hknown r Hr) as (b & Hb & <-).
      now apply Hfresh.
    + now apply Hstock.
Qed.

(** A loan recorded and a copy taken off the shelf. *)
Lemma consistent_borrow (s : db) (p : string) (bid : Z) (b : book)
    (d1 d2 : date_text) :
  consistent s -> get_book_by_id bid s = Some b -> 0 < available_copies b ->
  consistent {| books := map (add_available bid (-1)) (books s);
                borrows := mkBorrow p bid d1 d2 None :: borrows s |}.
Proof.
  intros [Hnd Hknown Hstock] Hget Hpos.
  apply get_book_by_id_found in Hget. destruct Hget as [Hin Hid].
  constructor; cbn [books borrows].
  - now rewrite map_id_add_available.
  - intros r [<- | Hr]; apply known_after_update.
    + now exists b.
    + now apply Hknown.
  - intros b' Hb'. apply in_map_iff in Hb'. destruct Hb' as (b0 & <- & Hb0).
    rewrite add_available_id, loans_of_cons.
    unfold on_loan, add_available. cbn [book_id return_date].
    destruct (Hstock b0 Hb0) as [H0 H1].
    destruct (id b0 =? bid) eqn:E.
    + apply Z.eqb_eq in E.
      assert (b0 = b) by (apply (unique_by_id (books s)); congruence).
      subst b0. cbn [available_copies total_copies].
      rewrite Z.eqb_sym, (proj2 (Z.eqb_eq _ _) E). cbn [andb]. lia.
    + rewrite Z.eqb_sym, E. cbn [andb]. lia.
Qed.

(** A loan closed, with or without the copy put back on the shelf. *)
Lemma consistent_return (s : db) (p : string) (bid : Z) (now : datetime)
    (rows : list borrow) (back : bool) :
  consistent s ->
  close_latest p bid now (borrows s) = Some rows ->
  consistent {| books := if back then map (add_available bid 1) (books s)
                         else books s;
                borrows := rows |}.
Proof.
  intros [Hnd Hknown Hstock] Hclose.
  apply close_latest_loans in Hclose. destruct Hclose as (H1 & H2 & H3).
  pose proof (known_of_rows (books s) (borrows s) rows H3 Hknown) as Hknown'.
  destruct back; constructor; cbn [books borrows].
  - now rewrite map_id_add_available.
  - intros r Hr. apply known_after_update. now apply Hknown'.
  - intros b' Hb'. apply in_map_iff in Hb'. destruct Hb' as (b0 & <- & Hb0).
    rewrite add_available_id. unfold add_available.
    destruct (Hstock b0 Hb0) as [H0 H4].
    destruct (id b0 =? bid) eqn:E.
    + apply Z.eqb_eq in E. cbn [available_copies total_copies].
      rewrite E in *. rewrite H1. lia.
    + apply Z.eqb_neq in E. rewrite (H2 _ E). lia.
  - exact Hnd.
  - exact Hknown'.
  - intros b0 Hb0. destruct (Hstock b0 Hb0) as [H0 H4].
    destruct (Z.eq_dec (id b0) bid) as [E | E].
    + rewrite E in *. rewrite H1. lia.
    + rewrite (H2 _ E). lia.
Qed.








(* ===================================================================== *)
(** ** Further properties of catalog admission                            *)
(* ===================================================================== *)

Lemma passes_validation_iff (t a i : string) (n : pyobj) :
  passes_validation t a i n = true <->
  String.eqb t "" = false /\ (len t >? 200) = false /\
  String.eqb a "" = false /\ (len a >? 100) = false /\
  negb (len i =? 13) || negb (isdigit i) = false /\
  negb (isinstance_int n) || (int_value n <=? 0) = false.
Proof.
  split; [apply passes_validation_checks |].
  intros (H1 & H2 & H3 & H4 & H5 & H6).
  apply orb_false_iff in H5, H6.
  destruct H5 as [H5 H5'], H6 as [H6 H6'].
  apply negb_false_iff in H5, H5', H6.
  rewrite Z.gtb_ltb in H2, H4.
  apply Z.ltb_ge, Z.leb_le in H2. apply Z.ltb_ge, Z.leb_le in H4.
  apply Z.leb_gt, Z.ltb_lt in H6'.
  unfold passes_validation, valid_texts.
  rewrite H1, H2, H3, H4, H5, H5', H6, H6'. reflexivity.
Qed.

(** X1. [add_book_to_catalog] succeeds exactly when the write goes through,
    every field check passes on the trimmed texts and no stored book has
    the trimmed isbn. *)
Theorem add_succeeds_iff (ok : bool) (title author isbn n : pyobj) (s : db)
    (t a i : string) :
  or_empty_strip title = Returns t ->
  or_empty_strip author = Returns a ->
  or_empty_strip isbn = Returns i ->
  (succeeded (fst (add_book_to_catalog ok title author isbn n s)) = true
   <-> ok = true /\ passes_validation t a i n = true
       /\ get_book_by_isbn i s = None).
Proof.
  intros Ht Ha Hi.
  rewrite (add_book_unfold ok title author isbn n s t a i Ht Ha Hi).
  rewrite passes_validation_iff.
  destruct (String.eqb t ""); [cbn; intuition discriminate |].
  destruct (len t >? 200); [cbn; intuition discriminate |].
  destruct (String.eqb a ""); [cbn; intuition discriminate |].
  destruct (len a >? 100); [cbn; intuition discriminate |].
  destruct (negb (len i =? 13) || negb (isdigit i));
    [cbn; intuition discriminate |].
  destruct (negb (isinstance_int n) || (int_value n <=? 0));
    [cbn; intuition discriminate |].
  destruct (get_book_by_isbn i s); [cbn; intuition discriminate |].
  destruct ok; cbn; intuition discriminate.
Qed.

Lemma add_succeeds_iff_witness :
  succeeded (fst (add_book_to_catalog true (PyStr "  Clean Code ")
                    (PyStr "Robert Martin") (PyStr "9780132350884 ")
                    (PyInt 3) Db.empty)) = true.
Proof.
  apply (add_succeeds_iff true (PyStr "  Clean Code ") (PyStr "Robert Martin")
           (PyStr "9780132350884 ") (PyInt 3) Db.empty
           "Clean Code" "Robert Martin" "9780132350884");
    try reflexivity.
  repeat split; reflexivity.
Defined.

Lemma get_book_by_id_fresh (s : db) :
  get_book_by_id (max_id (books s) + 1) s = None.
Proof.
  destruct (get_book_by_id (max_id (books s) + 1) s) as [b |] eqn:E;
    [| reflexivity].
  apply get_book_by_id_found in E. destruct E as [Hin Hid].
  pose proof (id_le_max_id _ _ Hin). lia.
Qed.

(** X2. After a successful [add_book_to_catalog] the new book is found by
    its trimmed isbn and by its id, an id no book had before; it carries
    the trimmed title and author, and all its copies are available. *)
Theorem add_then_lookup (ok : bool) (title author isbn n : pyobj) (s s' : db)
    (t a i : string) (m : message) :
  or_empty_strip title = Returns t ->
  or_empty_strip author = Returns a ->
  or_empty_strip isbn = Returns i ->
  add_book_to_catalog ok title author isbn n s = (Returns (true, m), s') ->
  exists b,
    get_book_by_isbn i s' = Some b /\ get_book_by_id (id b) s' = Some b
    /\ get_book_by_id (id b) s = None
    /\ Db.title b = t /\ Db.author b = a /\ Db.isbn b = i
    /\ total_copies b = int_value n
    /\ available_copies b = total_copies b /\ 0 < total_copies b
    /\ borrows s' = borrows s.
Proof.
  intros Ht Ha Hi Hrun.
  rewrite (add_book_unfold ok title author isbn n s t a i Ht Ha Hi) in Hrun.
  do 5 (break_match; [discriminate Hrun |]).
  destruct (negb (isinstance_int n) || (int_value n <=? 0)) eqn:En;
    [discriminate Hrun |].
  apply orb_false_iff in En. destruct En as [_ En]. apply Z.leb_gt in En.
  destruct (get_book_by_isbn i s); [discriminate Hrun |].
  destruct ok; [| discriminate Hrun].
  inversion Hrun; subst s' m; clear Hrun.
  exists (mkBook (max_id (books s) + 1) t a i (int_value n) (int_value n)).
  unfold get_book_by_isbn, get_book_by_id at 1.
  cbn [books borrows find id Db.isbn Db.title Db.author total_copies
       available_copies].
  rewrite String.eqb_refl, Z.eqb_refl.
  repeat split; try reflexivity; [apply get_book_by_id_fresh | exact En].
Qed.

Lemma add_then_lookup_witness :
  exists b,
    get_book_by_isbn "9780132350884"
      (snd (add_book_to_catalog true (PyStr "  Clean Code ")
              (PyStr "Robert Martin") (PyStr "9780132350884 ") (PyInt 3)
              store_one_book)) = Some b
    /\ id b = 2 /\ title b = "Clean Code" /\ available_copies b = 3.
Proof.
  destruct (add_then_lookup true (PyStr "  Clean Code ")
              (PyStr "Robert Martin") (PyStr "9780132350884 ") (PyInt 3)
              store_one_book
              (snd (add_book_to_catalog true (PyStr "  Clean Code ")
                      (PyStr "Robert Martin") (PyStr "9780132350884 ")
                      (PyInt 3) store_one_book))
              "Clean Code" "Robert Martin" "9780132350884"
              (Book_added "Clean Code")
              eq_refl eq_refl eq_refl eq_refl)
    as (b & H1 & H2 & H3 & H4 & H5 & H6 & H7 & H8 & H9 & H10).
  exists b. split; [exact H1 |].
  cbn in H1. inversion H1; subst b. repeat split; reflexivity.
Defined.

Lemma lstrip_all_space (cs : list ascii) :
  forallb isspace_char cs = true -> lstrip_chars cs = [].
Proof.
  induction cs as [| c cs IH]; [reflexivity |].
  cbn [forallb lstrip_chars]. intros H.
  apply andb_prop in H. destruct H as [Hc Hcs].
  rewrite Hc. now apply IH.
Qed.

Lemma strip_all_space (t : string) : all_space t = true -> strip t = "".
Proof.
  unfold all_space, strip. intros H.
  rewrite (lstrip_all_space _ H). reflexivity.
Qed.

(** X3. A title that is empty or made of whitespace only is rejected with
    the title-required message and the store untouched, whatever the
    number of copies, as soon as author and isbn are texts (or falsy). *)
Theorem blank_title_rejected (ok : bool) (t : string) (author isbn n : pyobj)
    (s : db) :
  all_space t = true ->
  str_or_falsy author -> str_or_falsy isbn ->
  add_book_to_catalog ok (PyStr t) author isbn n s
  = (Returns (false, Title_required), s).
Proof.
  intros Hsp Ha Hi.
  destruct (or_empty_strip_text author Ha) as (a & Ea & _).
  destruct (or_empty_strip_text isbn Hi) as (i & Ei & _).
  assert (Et : or_empty_strip (PyStr t) = Returns "").
  { unfold or_empty_strip. destruct (truthy (PyStr t)); [| reflexivity].
    now rewrite strip_all_space. }
  rewrite (add_book_unfold ok (PyStr t) author isbn n s "" a i Et Ea Ei).
  reflexivity.
Qed.

Lemma blank_title_rejected_witness :
  add_book_to_catalog true (PyStr "    ") (PyStr "Robert Martin")
    (PyStr "9780132350884") (PyInt 3) Db.empty
  = (Returns (false, Title_required), Db.empty).
Proof.
  apply (blank_title_rejected true "    " (PyStr "Robert Martin")
           (PyStr "9780132350884") (PyInt 3) Db.empty).
  - reflexivity.
  - right. exists "Robert Martin". reflexivity.
  - right. exists "9780132350884". reflexivity.
Defined.

(* ===================================================================== *)
(** ** Further properties of borrowing and returning                      *)
(* ===================================================================== *)

Lemma close_latest_none (p : string) (bid : Z) (now : datetime)
    (rows : list borrow) :
  (forall r, In r rows -> active_for p bid r = false) ->
  close_latest p bid now rows = None.
Proof.
  induction rows as [| r rs IH]; intros H; [reflexivity |].
  cbn [close_latest]. rewrite (H r (or_introl eq_refl)).
  rewrite IH; [reflexivity |]. intros r' Hr'. apply H. now right.
Qed.

Lemma close_latest_some (p : string) (bid : Z) (now : datetime)
    (rows : list borrow) (r : borrow) :
  In r rows -> active_for p bid r = true ->
  close_latest p bid now rows <> None.
Proof.
  induction rows as [| r0 rs IH]; intros Hin Hact; [destruct Hin |].
  cbn [close_latest]. destruct (active_for p bid r0) eqn:E; [discriminate |].
  destruct Hin as [-> | Hin]; [congruence |].
  specialize (IH Hin Hact).
  destruct (close_latest p bid now rs); [discriminate | contradiction].
Qed.

(** [int()] is stricter than [str.strip()]: a file separator (code point
    28) before the digits, or a literal of 4301 digits, is refused, and
    the return answers with the invalid-book-id message. *)
Lemma int_refuses_separator :
  try_int (PyStr (String (ascii_of_nat 28) "1")) = None
  /\ strip (String (ascii_of_nat 28) "1") = "1".
Proof. split; reflexivity. Qed.

Lemma int_refuses_long_literal :
  try_int (PyStr (string_of_list_ascii (repeat "0"%char 4300) ++ "1")) = None
  /\ try_int (PyStr (string_of_list_ascii (repeat "0"%char 4299) ++ "1"))
     = Some 1.
Proof. split; vm_compute; reflexivity. Qed.

Lemma return_refuses_separator :
  return_book_by_patron true true 0 (PyStr "123456")
    (PyStr (String (ascii_of_nat 28) "1")) store_at_limit
  = (Returns (false, Invalid_book_id), store_at_limit).
Proof. reflexivity. Qed.

(** X4. [return_book_by_patron] checks, in this order, the format of the
    patron id, that the book id resolves to an integer, that the book
    exists and that the pair has an active loan; the first check that
    fails decides the message, and the store is left as it was. *)
Theorem return_checks_in_order (k1 k2 : bool) (now : datetime)
    (patron_id book_id : pyobj) (s : db) :
  (patron_id_rejected patron_id = Returns true ->
   return_book_by_patron k1 k2 now patron_id book_id s
   = (Returns (false, Invalid_patron_id), s))
  /\ (patron_id_rejected patron_id = Returns false ->
      try_int book_id = None ->
      return_book_by_patron k1 k2 now patron_id book_id s
      = (Returns (false, Invalid_book_id), s))
  /\ (patron_id_rejected patron_id = Returns false ->
      forall bid, try_int book_id = Some bid ->
      get_book_by_id bid s = None ->
      return_book_by_patron k1 k2 now patron_id book_id s
      = (Returns (false, Book_not_found), s))
  /\ (patron_id_rejected patron_id = Returns false ->
      forall bid b, try_int book_id = Some bid ->
      get_book_by_id bid s = Some b ->
      (forall r, In r (borrows s) ->
                 active_for (str_of patron_id) bid r = false) ->
      return_book_by_patron k1 k2 now patron_id book_id s
      = (Returns (false, No_active_borrow), s)).
Proof.
  split; [| split; [| split]].
  - intros Hp. unfold return_book_by_patron. rewrite Hp. reflexivity.
  - intros Hp Hb. unfold return_book_by_patron. rewrite Hp, Hb. reflexivity.
  - intros Hp bid Hb Hg.
    rewrite (return_unfold k1 k2 now patron_id book_id bid s Hp Hb), Hg.
    reflexivity.
  - intros Hp bid b Hb Hg Hnone.
    rewrite (return_unfold k1 k2 now patron_id book_id bid s Hp Hb), Hg.
    rewrite (close_latest_none _ _ _ _ Hnone).
    destruct (negb k1); reflexivity.
Qed.

Lemma return_checks_in_order_witness :
  return_book_by_patron true true 0 (PyStr "12345") (PyStr "x") store_at_limit
  = (Returns (false, Invalid_patron_id), store_at_limit)
  /\ return_book_by_patron true true 0 (PyStr "123456") (PyStr "x")
       store_at_limit
     = (Returns (false, Invalid_book_id), store_at_limit)
  /\ return_book_by_patron true true 0 (PyStr "123456") (PyStr "7")
       store_at_limit
     = (Returns (false, Book_not_found), store_at_limit)
  /\ return_book_by_patron true true 0 (PyStr "654321") (PyStr "1")
       store_at_limit
     = (Returns (false, No_active_borrow), store_at_limit).
Proof.
  split; [| split; [| split]].
  - apply (proj1 (return_checks_in_order true true 0 (PyStr "12345")
                    (PyStr "x") store_at_limit)).
    reflexivity.
  - apply (proj1 (proj2 (return_checks_in_order true true 0 (PyStr "123456")
                           (PyStr "x") store_at_limit))); reflexivity.
  - apply (proj1 (proj2 (proj2
             (return_checks_in_order true true 0 (PyStr "123456")
                (PyStr "7") store_at_limit))) eq_refl 7); reflexivity.
  - apply (proj2 (proj2 (proj2
             (return_checks_in_order true true 0 (PyStr "654321")
                (PyStr "1") store_at_limit))) eq_refl 1
             (mkBook 1 "1984" "George Orwell" "9999999999999" 5 0));
      try reflexivity.
    intros r Hr. cbn in Hr.
    repeat (destruct Hr as [<- | Hr]; [reflexivity |]). destruct Hr.
Defined.

Lemma active_count_cons (p : string) (r : borrow) (rows : list borrow) :
  Z.of_nat (List.length (filter (active_of p) (r :: rows)))
  = (if active_of p r then 1 else 0)
    + Z.of_nat (List.length (filter (active_of p) rows)).
Proof.
  cbn [filter]. destruct (active_of p r); cbn [List.length]; lia.
Qed.

(** Closing a loan takes one active loan off its patron and none off the
    others. *)
Lemma close_latest_count (p : string) (bid : Z) (now : datetime)
    (rows rows' : list borrow) (p' : string) :
  close_latest p bid now rows = Some rows' ->
  Z.of_nat (List.length (filter (active_of p') rows'))
  = Z.of_nat (List.length (filter (active_of p') rows))
    - (if String.eqb p' p then 1 else 0).
Proof.
  revert rows'. induction rows as [| r rows IH]; intros rows' H.
  - discriminate H.
  - cbn [close_latest] in H. destruct (active_for p bid r) eqn:Ha.
    + inversion H; subst rows'; clear H.
      unfold active_for in Ha.
      apply andb_prop in Ha. destruct Ha as [Ha Hret].
      apply andb_prop in Ha. destruct Ha as [Hp _].
      apply String.eqb_eq in Hp.
      rewrite !active_count_cons. unfold active_of.
      cbn [Db.patron_id return_date]. rewrite Hp, Hret.
      rewrite (String.eqb_sym p p'), andb_false_r, andb_true_r.
      destruct (String.eqb p' p); lia.
    + destruct (close_latest p bid now rows) as [rows1 |]; [| discriminate H].
      inversion H; subst rows'; clear H.
      rewrite !active_count_cons, (IH rows1 eq_refl). lia.
Qed.

(** X5. A successful borrow adds exactly one active loan to the borrowing
    patron and a successful return takes exactly one off the returning
    patron; the loan counts of all other patrons stay as they are. *)
Theorem loan_count_steps :
  (forall k1 k2 now patron_id bid s s' m p',
     borrow_book_by_patron k1 k2 now patron_id bid s
     = (Returns (true, m), s') ->
     get_patron_borrow_count p' s'
     = get_patron_borrow_count p' s
       + (if String.eqb p' (str_of patron_id) then 1 else 0))
  /\ (forall k1 k2 now patron_id book_id s s' m p',
        return_book_by_patron k1 k2 now patron_id book_id s
        = (Returns (true, m), s') ->
        get_patron_borrow_count p' s'
        = get_patron_borrow_count p' s
          - (if String.eqb p' (str_of patron_id) then 1 else 0)).
Proof.
  split.
  - intros k1 k2 now patron_id bid s s' m p' H.
    apply borrow_success in H. destruct H as (b & _ & _ & ->).
    unfold get_patron_borrow_count. cbn [borrows].
    rewrite active_count_cons. unfold active_of at 1.
    cbn [Db.patron_id return_date].
    rewrite andb_true_r, String.eqb_sym. lia.
  - intros k1 k2 now patron_id book_id s s' m p' H.
    apply return_success in H.
    destruct H as (bid & b & rows & _ & _ & Hc & ->).
    unfold get_patron_borrow_count. cbn [borrows].
    now apply (close_latest_count _ _ _ _ _ p') in Hc.
Qed.

Lemma loan_count_steps_witness :
  get_patron_borrow_count "123456"
    (snd (borrow_book_by_patron true true 0 (PyStr "123456") 1 store_one_book))
  = 1
  /\ get_patron_borrow_count "123456"
       (snd (return_book_by_patron true true 0 (PyStr "123456") (PyInt 1)
               (snd (borrow_book_by_patron true true 0 (PyStr "123456") 1
                       store_one_book))))
     = 0.
Proof.
  destruct loan_count_steps as [Hb Hr]. split.
  - etransitivity.
    + apply (Hb true true 0 (PyStr "123456") 1 store_one_book
               (snd (borrow_book_by_patron true true 0 (PyStr "123456") 1
                       store_one_book))
               (Borrowed "1984" 14) "123456").
      reflexivity.
    + reflexivity.
  - etransitivity.
    + apply (Hr true true 0 (PyStr "123456") (PyInt 1)
               (snd (borrow_book_by_patron true true 0 (PyStr "123456") 1
                       store_one_book))
               (snd (return_book_by_patron true true 0 (PyStr "123456")
                       (PyInt 1)
                       (snd (borrow_book_by_patron true true 0
                               (PyStr "123456") 1 store_one_book))))
               (Returned "1984") "123456").
      reflexivity.
    + reflexivity.
Defined.

(** X6. When a return reports the failure of the availability update, the
    loan is closed all the same: the patron has one active loan less and
    no availability counter has moved. *)
Theorem return_persistence_error (k1 k2 : bool) (now : datetime)
    (patron_id book_id : pyobj) (s s' : db) :
  return_book_by_patron k1 k2 now patron_id book_id s
  = (Returns (false, Db_error_availability), s') ->
  books s' = books s
  /\ get_patron_borrow_count (str_of patron_id) s'
     = get_patron_borrow_count (str_of patron_id) s - 1.
Proof.
  intros Hrun.
  destruct (patron_id_rejected patron_id) as [[|] | e] eqn:Hp;
    try (unfold return_book_by_patron in Hrun; rewrite Hp in Hrun;
         discriminate Hrun).
  destruct (try_int book_id) as [bid |] eqn:Hb;
    [| unfold return_book_by_patron in Hrun; rewrite Hp, Hb in Hrun;
       discriminate Hrun].
  rewrite (return_unfold k1 k2 now patron_id book_id bid s Hp Hb) in Hrun.
  destruct (get_book_by_id bid s) as [b |]; [| discriminate Hrun].
  destruct (negb k1); [discriminate Hrun |].
  destruct (close_latest (str_of patron_id) bid now (borrows s))
    as [rows |] eqn:Hc; [| discriminate Hrun].
  destruct (negb k2); inversion Hrun; subst s'.
  split; [reflexivity |].
  unfold get_patron_borrow_count. cbn [borrows].
  rewrite (close_latest_count _ _ _ _ _ (str_of patron_id) Hc).
  now rewrite String.eqb_refl.
Qed.

Lemma return_persistence_error_witness :
  get_patron_borrow_count "123456"
    (snd (return_book_by_patron true false 0 (PyStr "123456") (PyInt 1)
            store_at_limit))
  = 4.
Proof.
  etransitivity.
  - apply (return_persistence_error true false 0 (PyStr "123456")
             (PyInt 1) store_at_limit
             (snd (return_book_by_patron true false 0 (PyStr "123456")
                     (PyInt 1) store_at_limit))).
    reflexivity.
  - reflexivity.
Defined.

(* ===================================================================== *)
(** ** The service as a transition system                                 *)
(* ===================================================================== *)

Lemma lstrip_split (cs : list ascii) :
  exists pre, cs = (pre ++ lstrip_chars cs)%list
              /\ forallb isspace_char pre = true.
Proof.
  induction cs as [| c cs (pre & E & Hpre)].
  - exists []. split; reflexivity.
  - cbn [lstrip_chars]. destruct (isspace_char c) eqn:Hc.
    + exists (c :: pre). split; [cbn [app]; now f_equal |].
      cbn [forallb]. now rewrite Hc, Hpre.
    + exists []. split; reflexivity.
Qed.

Lemma lstrip_head (cs : list ascii) :
  match lstrip_chars cs with
  | [] => True
  | c :: _ => isspace_char c = false
  end.
Proof.
  induction cs as [| c cs IH]; [exact I |].
  cbn [lstrip_chars]. destruct (isspace_char c) eqn:Hc; [exact IH | exact Hc].
Qed.

Lemma lstrip_fixed (cs : list ascii) :
  match cs with
  | [] => True
  | c :: _ => isspace_char c = false
  end ->
  lstrip_chars cs = cs.
Proof.
  destruct cs as [| c cs]; [reflexivity |].
  cbn [lstrip_chars]. now intros ->.
Qed.

(** Trimming a trimmed text changes nothing. *)
Lemma strip_strip (t : string) : strip (strip t) = strip t.
Proof.
  unfold strip. rewrite list_ascii_of_string_of_list_ascii.
  set (l1 := lstrip_chars (list_ascii_of_string t)).
  set (l2 := lstrip_chars (rev l1)).
  assert (H2 : lstrip_chars l2 = l2) by (apply lstrip_fixed, lstrip_head).
  assert (H1 : lstrip_chars (rev l2) = rev l2).
  { apply lstrip_fixed.
    destruct (lstrip_split (rev l1)) as (pre & E & _). fold l2 in E.
    apply (f_equal (@rev ascii)) in E.
    rewrite rev_involutive, rev_app_distr in E.
    pose proof (lstrip_head (list_ascii_of_string t)) as Hh. fold l1 in Hh.
    destruct (rev l2) as [| c l]; [exact I |].
    rewrite E in Hh. exact Hh. }
  now rewrite H1, rev_involutive, H2.
Qed.

Lemma or_empty_strip_trimmed (x : pyobj) (t : string) :
  or_empty_strip x = Returns t -> strip t = t.
Proof.
  unfold or_empty_strip. destruct (truthy x).
  - destruct x; try discriminate. intros H. inversion H. apply strip_strip.
  - intros H. inversion H. reflexivity.
Qed.

Lemma patron_accepted (x : pyobj) :
  patron_id_rejected x = Returns false ->
  exists p, x = PyStr p /\ six_digits p = true.
Proof.
  unfold patron_id_rejected. destruct (truthy x); cbn [negb];
    [| discriminate].
  destruct x as [| b | z | p]; try discriminate.
  intros H. exists p. split; [reflexivity |].
  inversion H as [H']. apply orb_false_iff in H'. destruct H' as [H1 H2].
  apply negb_false_iff in H1, H2. unfold six_digits. now rewrite H1, H2.
Qed.

Lemma not_torn (m : message) :
  m <> Db_error_book_availability -> m <> Db_error_availability ->
  ~ torn (Returns (false, m)).
Proof. intros H1 H2 [H | H]; inversion H; contradiction. Qed.

Lemma add_effect (ok : bool) (title author isbn n : pyobj) (s : db) :
  effect s (fst (add_book_to_catalog ok title author isbn n s))
    (snd (add_book_to_catalog ok title author isbn n s)).
Proof.
  assert (Hraise : forall e, effect s (Raises e) s).
  { intros e. apply Eff_none; [reflexivity |]. intros [H | H]; discriminate H. }
  assert (Hfail : forall m, error_of m <> Some PersistenceError
                            \/ m = Db_error_adding ->
                            effect s (Returns (false, m)) s).
  { intros m Hm. apply Eff_none; [reflexivity |].
    apply not_torn; intros ->; destruct Hm as [Hm | Hm];
      solve [now apply Hm | discriminate Hm]. }
  destruct (or_empty_strip title) as [t | e] eqn:Et;
    [| unfold add_book_to_catalog; rewrite Et; apply Hraise].
  destruct (or_empty_strip author) as [a | e] eqn:Ea;
    [| unfold add_book_to_catalog; rewrite Et, Ea; apply Hraise].
  destruct (or_empty_strip isbn) as [i | e] eqn:Ei;
    [| unfold add_book_to_catalog; rewrite Et, Ea, Ei; apply Hraise].
  rewrite (add_book_unfold ok title author isbn n s t a i Et Ea Ei).
  destruct (passes_validation t a i n) eqn:Hv.
  - pose proof Hv as Hv'. apply passes_validation_checks in Hv'.
    destruct Hv' as (-> & -> & -> & -> & -> & ->).
    unfold passes_validation in Hv.
    apply andb_prop in Hv. destruct Hv as [Hv Hn].
    apply andb_prop in Hv. destruct Hv as [Hv _]. apply Z.ltb_lt in Hn.
    destruct (get_book_by_isbn i s) eqn:Hg;
      [apply Hfail; left; discriminate |].
    destruct ok; [| apply Hfail; now right].
    cbn [fst snd].
    apply Eff_add; try assumption;
      [exact (or_empty_strip_trimmed _ _ Et)
      | exact (or_empty_strip_trimmed _ _ Ea)
      | exact (or_empty_strip_trimmed _ _ Ei)].
  - do 6 (break_match; [apply Hfail; left; discriminate |]).
    exfalso. rewrite (proj2 (passes_validation_iff t a i n)) in Hv;
      [discriminate | repeat split; assumption].
Qed.

Lemma borrow_effect (k1 k2 : bool) (now : datetime) (patron_id : pyobj)
    (bid : Z) (s : db) :
  effect s (fst (borrow_book_by_patron k1 k2 now patron_id bid s))
    (snd (borrow_book_by_patron k1 k2 now patron_id bid s)).
Proof.
  assert (Hfail : forall m, m <> Db_error_book_availability ->
                            m <> Db_error_availability ->
                            effect s (Returns (false, m)) s).
  { intros m H1 H2. apply Eff_none; [reflexivity | now apply not_torn]. }
  destruct (patron_id_rejected patron_id) as [[|] | e] eqn:Hp.
  - unfold borrow_book_by_patron. rewrite Hp. apply Hfail; discriminate.
  - rewrite borrow_unfold by assumption.
    destruct (patron_accepted _ Hp) as (p & -> & Hsix). cbn [str_of].
    destruct (get_book_by_id bid s) as [b |] eqn:Hg;
      [| apply Hfail; discriminate].
    destruct (available_copies b <=? 0) eqn:Ha; [apply Hfail; discriminate |].
    apply Z.leb_gt in Ha.
    destruct (get_patron_borrow_count p s >=? 5) eqn:Hc;
      [apply Hfail; discriminate |].
    rewrite Z.geb_leb in Hc. apply Z.leb_gt in Hc.
    destruct (negb (in_datetime_range (plus_days now 14)));
      [apply Eff_none; [reflexivity |]; intros [H | H]; discriminate H |].
    destruct (negb (k1 && in_int64 bid)); [apply Hfail; discriminate |].
    destruct k2; cbn [negb fst snd].
    + exact (Eff_borrow s p bid b now true Hsix Hg Ha Hc).
    + exact (Eff_borrow s p bid b now false Hsix Hg Ha Hc).
  - unfold borrow_book_by_patron. rewrite Hp.
    apply Eff_none; [reflexivity |]. intros [H | H]; discriminate H.
Qed.

Lemma return_effect (k1 k2 : bool) (now : datetime)
    (patron_id book_id : pyobj) (s : db) :
  effect s (fst (return_book_by_patron k1 k2 now patron_id book_id s))
    (snd (return_book_by_patron k1 k2 now patron_id book_id s)).
Proof.
  assert (Hfail : forall m, m <> Db_error_book_availability ->
                            m <> Db_error_availability ->
                            effect s (Returns (false, m)) s).
  { intros m H1 H2. apply Eff_none; [reflexivity | now apply not_torn]. }
  destruct (patron_id_rejected patron_id) as [[|] | e] eqn:Hp.
  - unfold return_book_by_patron. rewrite Hp. apply Hfail; discriminate.
  - destruct (try_int book_id) as [bid |] eqn:Hb;
      [| unfold return_book_by_patron; rewrite Hp, Hb;
         apply Hfail; discriminate].
    rewrite (return_unfold k1 k2 now patron_id book_id bid s Hp Hb).
    destruct (get_book_by_id bid s) as [b |] eqn:Hg;
      [| apply Hfail; discriminate].
    destruct k1; cbn [negb]; [| apply Hfail; discriminate].
    destruct (close_latest (str_of patron_id) bid now (borrows s))
      as [rows |] eqn:Hc; [| apply Hfail; discriminate].
    destruct k2; cbn [negb fst snd].
    + exact (Eff_return s _ bid b now rows true Hg Hc).
    + exact (Eff_return s _ bid b now rows false Hg Hc).
  - unfold return_book_by_patron. rewrite Hp.
    apply Eff_none; [reflexivity |]. intros [H | H]; discriminate H.
Qed.

Lemma step_effect (o : op) (s : db) :
  effect s (fst (step o s)) (snd (step o s)).
Proof.
  destruct o; cbn [step].
  - apply add_effect.
  - apply borrow_effect.
  - apply return_effect.
Qed.

(** A property that every allowed effect preserves holds after every run
    whose results are all allowed. *)
Lemma run_preserves (P : db -> Prop) (A : outcome (bool * message) -> Prop) :
  (forall s r s', P s -> A r -> effect s r s' -> P s') ->
  forall ops s, P s -> (forall r, In r (fst (run ops s)) -> A r) ->
  P (snd (run ops s)).
Proof.
  intros Hstep ops. induction ops as [| o ops IH]; intros s Hs HA;
    [exact Hs |].
  rewrite run_cons in *. cbn [fst snd] in *.
  apply IH.
  - apply (Hstep s (fst (step o s))); [exact Hs | | apply step_effect].
    apply HA. now left.
  - intros r Hr. apply HA. now right.
Qed.

(* ===================================================================== *)
(** ** Further properties of the late fee                                 *)
(* ===================================================================== *)

(** The three shapes of [calculate_late_fee_for_book] as the clock moves:
    it raises, it finds no usable loan, or it reports on one due date. *)
Lemma late_fee_shape (patron_id book_id : pyobj) (s : db) :
  (exists e, forall today,
     calculate_late_fee_for_book today patron_id book_id s = Raises e)
  \/ (forall today,
        calculate_late_fee_for_book today patron_id book_id s
        = Returns no_loan_report)
  \/ (exists due, forall today,
        calculate_late_fee_for_book today patron_id book_id s
        = Returns (report_of_days (Z.max 0 (date today - date due)))).
Proof.
  unfold calculate_late_fee_for_book.
  destruct (patron_id_rejected patron_id) as [[|] | e]; cbn [bind].
  - right. left. reflexivity.
  - destruct (try_int book_id) as [bid |]; [| right; left; reflexivity].
    destruct (latest_active (str_of patron_id) bid s) as [[row |] | e];
      cbn [bind].
    + destruct (fromisoformat (due_date row)) as [due |];
        [| right; left; reflexivity].
      right. right. exists due. intros today. unfold report_of_days.
      destruct (Z.max 0 (date today - date due) =? 0); reflexivity.
    + right. left. reflexivity.
    + left. exists e. reflexivity.
  - left. exists e. reflexivity.
Qed.

Lemma late_fee_of_days_tiered (d : Z) :
  0 < d -> (late_fee_of_days d == tiered_fee d)%Q.
Proof.
  intros Hd. unfold late_fee_of_days.
  rewrite (epsilon_harmless d Hd). now apply round2_tiered_fee.
Qed.

Lemma tiered_fee_mono (d1 d2 : Z) :
  d1 <= d2 -> (tiered_fee d1 <= tiered_fee d2)%Q.
Proof.
  intros H. unfold tiered_fee. apply Q.min_le_compat_l.
  unfold Qle, Qplus, Qmult, inject_Z; cbn [Qnum Qden]. lia.
Qed.

Lemma tiered_fee_bounds (d : Z) :
  0 < d -> ((1 # 2) <= tiered_fee d)%Q /\ (tiered_fee d <= 15)%Q.
Proof.
  intros H. unfold tiered_fee. split.
  - apply Q.min_glb; [vm_compute; discriminate |].
    unfold Qle, Qplus, Qmult, inject_Z; cbn [Qnum Qden]. lia.
  - apply Q.le_min_l.
Qed.

Lemma tiered_fee_below_cap (d : Z) : d < 19 -> (tiered_fee d < 15)%Q.
Proof.
  intros H. unfold tiered_fee.
  eapply Qle_lt_trans; [apply Q.le_min_r |].
  unfold Qlt, Qplus, Qmult, inject_Z; cbn [Qnum Qden]. lia.
Qed.

Lemma report_of_days_sound (d : Z) :
  0 <= d ->
  days_overdue (report_of_days d) = d
  /\ (0 <= fee_amount (report_of_days d))%Q
  /\ (fee_amount (report_of_days d) <= 15)%Q
  /\ (status (report_of_days d) = late <-> 0 < d)
  /\ (status (report_of_days d) = on_time <-> d = 0)
  /\ (0 < d -> ((1 # 2) <= fee_amount (report_of_days d))%Q)
  /\ (d = 0 -> fee_amount (report_of_days d) = 0%Q)
  /\ ((fee_amount (report_of_days d) == 15)%Q <-> 19 <= d).
Proof.
  intros Hd. unfold report_of_days. destruct (d =? 0) eqn:E.
  - apply Z.eqb_eq in E. subst d. cbn [days_overdue fee_amount status].
    split; [reflexivity |].
    split; [vm_compute; discriminate |].
    split; [vm_compute; discriminate |].
    split; [split; [discriminate | lia] |].
    split; [split; reflexivity |].
    split; [lia |].
    split; [reflexivity |].
    split; [intros H; vm_compute in H; discriminate H | lia].
  - apply Z.eqb_neq in E. assert (Hpos : 0 < d) by lia.
    cbn [days_overdue fee_amount status].
    pose proof (late_fee_of_days_tiered d Hpos) as Hfee.
    destruct (tiered_fee_bounds d Hpos) as [Hlo Hhi].
    split; [reflexivity |].
    split; [rewrite Hfee; eapply Qle_trans; [| exact Hlo];
            vm_compute; discriminate |].
    split; [rewrite Hfee; exact Hhi |].
    split; [split; [intros _; exact Hpos | reflexivity] |].
    split; [split; [discriminate | lia] |].
    split; [intros _; rewrite Hfee; exact Hlo |].
    split; [lia |].
    split.
    + intros H. rewrite Hfee in H.
      destruct (Z_lt_ge_dec d 19) as [Hlt | Hge]; [| lia].
      apply tiered_fee_below_cap in Hlt. rewrite H in Hlt.
      exfalso. revert Hlt. apply Qlt_irrefl.
    + intros H. rewrite Hfee, tiered_fee_capped by lia. reflexivity.
Qed.

(** X7. Every report of [calculate_late_fee_for_book] is coherent: the
    days overdue and the fee are never negative, the fee never exceeds
    15.00, the status is [late] exactly when the days overdue are
    positive, and then the fee is at least 0.50; otherwise the fee is 0;
    the fee is 15.00 exactly from the nineteenth day overdue on. *)
Theorem fee_report_coherent (today : datetime) (patron_id book_id : pyobj)
    (s : db) (r : fee_report) :
  calculate_late_fee_for_book today patron_id book_id s = Returns r ->
  0 <= days_overdue r
  /\ (0 <= fee_amount r)%Q /\ (fee_amount r <= 15)%Q
  /\ (status r = late <-> 0 < days_overdue r)
  /\ (status r = late -> ((1 # 2) <= fee_amount r)%Q)
  /\ (status r <> late -> fee_amount r = 0%Q)
  /\ ((fee_amount r == 15)%Q <-> 19 <= days_overdue r).
Proof.
  intros H.
  assert (Hrep : exists d, 0 <= d /\ (r = no_loan_report /\ d = 0
                                      \/ r = report_of_days d)).
  { destruct (late_fee_shape patron_id book_id s)
      as [[e Hs] | [Hs | [due Hs]]];
      rewrite (Hs today) in H; inversion H; subst r; clear H.
    - exists 0. split; [lia | left; split; reflexivity].
    - exists (Z.max 0 (date today - date due)). split; [lia | now right]. }
  destruct Hrep as (d & Hd & [[-> ->] | ->]).
  - cbn [no_loan_report days_overdue fee_amount status].
    split; [lia |].
    split; [vm_compute; discriminate |].
    split; [vm_compute; discriminate |].
    split; [split; [discriminate | lia] |].
    split; [discriminate |].
    split; [reflexivity |].
    split; [intros H15; vm_compute in H15; discriminate H15 | lia].
  - destruct (report_of_days_sound d Hd)
      as (H1 & H2 & H3 & H4 & H5 & H6 & H7 & H8).
    rewrite H1.
    split; [exact Hd |]. split; [exact H2 |]. split; [exact H3 |].
    split; [exact H4 |].
    split; [intros Hl; apply H6, H4, Hl |].
    split; [| exact H8].
    intros Hn. apply H7.
    destruct (Z.eq_dec d 0) as [E | E]; [exact E |].
    exfalso. apply Hn. apply H4. lia.
Qed.

Lemma fee_report_coherent_witness :
  (fee_amount (mkFee (late_fee_of_days 76) 76 late) <= 15)%Q.
Proof.
  apply (fee_report_coherent (90 * 86400) (PyStr "123456") (PyStr "1")
           (snd (borrow_book_by_patron true true 0 (PyStr "123456") 1
                   store_one_book))
           (mkFee (late_fee_of_days 76) 76 late)).
  reflexivity.
Defined.

Lemma date_mono (t1 t2 : datetime) : t1 <= t2 -> date t1 <= date t2.
Proof. intros H. unfold date. apply Z.div_le_mono; lia. Qed.

Lemma report_of_days_mono (d1 d2 : Z) :
  0 <= d1 -> d1 <= d2 ->
  (fee_amount (report_of_days d1) <= fee_amount (report_of_days d2))%Q.
Proof.
  intros H0 H.
  destruct (Z.eq_dec d1 0) as [E | E].
  - subst d1. cbn [report_of_days Z.eqb fee_amount].
    now destruct (report_of_days_sound d2 H) as (_ & H2 & _).
  - unfold report_of_days.
    assert (E1 : (d1 =? 0) = false) by (apply Z.eqb_neq; lia).
    assert (E2 : (d2 =? 0) = false) by (apply Z.eqb_neq; lia).
    rewrite E1, E2. cbn [fee_amount].
    rewrite !late_fee_of_days_tiered by lia. now apply tiered_fee_mono.
Qed.

(** X8. Time only adds to the fee: for the same patron, book and store, a
    later clock reading gives at least as many days overdue and at least
    as high a fee. *)
Theorem fee_grows_with_time (t1 t2 : datetime) (patron_id book_id : pyobj)
    (s : db) (r1 r2 : fee_report) :
  t1 <= t2 ->
  calculate_late_fee_for_book t1 patron_id book_id s = Returns r1 ->
  calculate_late_fee_for_book t2 patron_id book_id s = Returns r2 ->
  days_overdue r1 <= days_overdue r2
  /\ (fee_amount r1 <= fee_amount r2)%Q.
Proof.
  intros Ht H1 H2.
  destruct (late_fee_shape patron_id book_id s)
    as [[e Hs] | [Hs | [due Hs]]];
    rewrite (Hs t1) in H1; rewrite (Hs t2) in H2;
    inversion H1; inversion H2; subst r1 r2; clear H1 H2.
  - split; [reflexivity | apply Qle_refl].
  - pose proof (date_mono t1 t2 Ht) as Hdate.
    set (d1 := Z.max 0 (date t1 - date due)).
    set (d2 := Z.max 0 (date t2 - date due)).
    assert (H0 : 0 <= d1) by (unfold d1; lia).
    assert (H12 : d1 <= d2) by (unfold d1, d2; lia).
    split.
    + destruct (report_of_days_sound d1 H0) as (-> & _).
      destruct (report_of_days_sound d2 ltac:(lia)) as (-> & _).
      exact H12.
    + now apply report_of_days_mono.
Qed.

Lemma fee_grows_with_time_witness :
  (fee_amount (mkFee (late_fee_of_days 1) 1 late)
   <= fee_amount (mkFee (late_fee_of_days 10) 10 late))%Q.
Proof.
  apply (fee_grows_with_time (15 * 86400) (24 * 86400) (PyStr "123456")
           (PyStr "1")
           (snd (borrow_book_by_patron true true 0 (PyStr "123456") 1
                   store_one_book))
           (mkFee (late_fee_of_days 1) 1 late)
           (mkFee (late_fee_of_days 10) 10 late)).
  - vm_compute. discriminate.
  - reflexivity.
  - reflexivity.
Defined.

(* ===================================================================== *)
(** ** What every run of the service keeps                                *)
(* ===================================================================== *)

Lemma within_limit_step (s : db) (r : outcome (bool * message)) (s' : db) :
  within_limit s -> effect s r s' -> within_limit s'.
Proof.
  intros Hs He p'. specialize (Hs p') as Hp'.
  destruct He as [r _ _ | t a i n _ _ _ _ _ _ | p bid b now took _ _ _ Hc
                 | p bid b now rows back _ Hc].
  - exact Hp'.
  - exact Hp'.
  - unfold get_patron_borrow_count in *. cbn [borrows].
    rewrite active_count_cons. unfold active_of at 1.
    cbn [Db.patron_id return_date]. rewrite andb_true_r.
    destruct (String.eqb p p') eqn:E; [| lia].
    apply String.eqb_eq in E. subst p'. lia.
  - unfold get_patron_borrow_count in *. cbn [borrows].
    rewrite (close_latest_count _ _ _ _ _ p' Hc).
    destruct (String.eqb p' p); lia.
Qed.

(** X9. No patron ever holds more than five active loans: after every
    sequence of add, borrow and return calls on the empty store, whatever
    the fate of the writes, the active-loan count of every patron is at
    most 5. *)
Theorem borrow_limit_kept (ops : list op) (p : string) :
  get_patron_borrow_count p (snd (run ops Db.empty)) <= 5.
Proof.
  revert p. change (within_limit (snd (run ops Db.empty))).
  apply (run_preserves within_limit (fun _ => True)).
  - intros s r s' Hs _ He. exact (within_limit_step s r s' Hs He).
  - intros p. cbn. lia.
  - intros r _. exact I.
Qed.

Lemma close_latest_back (p : string) (bid : Z) (now : datetime)
    (rows rows' : list borrow) :
  close_latest p bid now rows = Some rows' ->
  forall r', In r' rows' ->
  exists r, In r rows /\ Db.patron_id r' = Db.patron_id r
            /\ Db.book_id r' = Db.book_id r
            /\ borrow_date r' = borrow_date r /\ due_date r' = due_date r.
Proof.
  revert rows'. induction rows as [| r0 rows IH]; intros rows' H r' Hr'.
  - discriminate H.
  - cbn [close_latest] in H. destruct (active_for p bid r0).
    + inversion H; subst rows'; clear H. destruct Hr' as [<- | Hr'].
      * exists r0. cbn. repeat split. now left.
      * exists r'. repeat split. now right.
    + destruct (close_latest p bid now rows) as [rows1 |]; [| discriminate H].
      inversion H; subst rows'; clear H. destruct Hr' as [<- | Hr'].
      * exists r0. repeat split. now left.
      * destruct (IH rows1 eq_refl r' Hr') as (r & Hr & Hk).
        exists r. split; [now right | exact Hk].
Qed.

Lemma close_latest_forth (p : string) (bid : Z) (now : datetime)
    (rows rows' : list borrow) :
  close_latest p bid now rows = Some rows' ->
  List.length rows' = List.length rows
  /\ forall r, In r rows -> exists r', In r' rows' /\ kept r r'.
Proof.
  assert (Hrefl : forall r, kept r r) by (intros r; repeat split; auto).
  revert rows'. induction rows as [| r0 rows IH]; intros rows' H.
  - discriminate H.
  - cbn [close_latest] in H. destruct (active_for p bid r0) eqn:Ha.
    + inversion H; subst rows'; clear H. split; [reflexivity |].
      intros r [<- | Hr].
      * eexists. split; [now left |].
        unfold active_for in Ha. apply andb_prop in Ha. destruct Ha as [_ Ha].
        repeat split. cbn [return_date]. intros t Ht. rewrite Ht in Ha.
        discriminate Ha.
      * exists r. split; [now right | apply Hrefl].
    + destruct (close_latest p bid now rows) as [rows1 |]; [| discriminate H].
      inversion H; subst rows'; clear H.
      destruct (IH rows1 eq_refl) as [Hlen Hk]. split; [cbn; now rewrite Hlen |].
      intros r [<- | Hr].
      * exists r0. split; [now left | apply Hrefl].
      * destruct (Hk r Hr) as (r' & Hr' & Hkept).
        exists r'. split; [now right | exact Hkept].
Qed.

Lemma found_after_update (bid bid' delta : Z) (bs : list book)
    (rows rows' : list borrow) :
  get_book_by_id bid {| books := bs; borrows := rows |} <> None ->
  get_book_by_id bid {| books := map (add_available bid' delta) bs;
                        borrows := rows' |} <> None.
Proof.
  rewrite (get_book_by_id_update bid bid' delta bs rows rows').
  destruct (get_book_by_id bid {| books := bs; borrows := rows |});
    [discriminate | contradiction].
Qed.

Lemma found_whatever_rows (bid : Z) (took : bool)
    (bid' delta : Z) (s : db) (rows' : list borrow) :
  get_book_by_id bid s <> None ->
  get_book_by_id bid
    {| books := if took then map (add_available bid' delta) (books s)
                else books s;
       borrows := rows' |} <> None.
Proof.
  intros H. destruct took.
  - apply (found_after_update bid bid' delta (books s) (borrows s) rows').
    now destruct s.
  - exact H.
Qed.

Lemma records_ok_step (s : db) (r : outcome (bool * message)) (s' : db) :
  records_ok s -> effect s r s' -> records_ok s'.
Proof.
  intros Hs He.
  destruct He as [r _ _ | t a i n _ _ _ _ _ _ | p bid b now took Hsix Hg _ _
                 | p bid b now rows back _ Hc].
  - exact Hs.
  - intros r Hr. destruct (Hs r Hr) as [Hw Hf]. split; [exact Hw |].
    unfold get_book_by_id in *. cbn [books find id].
    destruct (max_id (books s) + 1 =? Db.book_id r); [discriminate | exact Hf].
  - intros r [<- | Hr].
    + split.
      * split; [exact Hsix |]. exists now. split; reflexivity.
      * cbn [Db.book_id]. apply found_whatever_rows.
        rewrite Hg. discriminate.
    + destruct (Hs r Hr) as [Hw Hf]. split; [exact Hw |].
      apply found_whatever_rows. exact Hf.
  - intros r' Hr'.
    destruct (close_latest_back _ _ _ _ _ Hc r' Hr')
      as (r0 & Hr0 & Hp & Hb & Hbd & Hdd).
    destruct (Hs r0 Hr0) as [[Hsix (t & Ht1 & Ht2)] Hf]. split.
    + split; [now rewrite Hp |]. exists t. now rewrite Hbd, Hdd.
    + rewrite Hb. apply found_whatever_rows. exact Hf.
Qed.

(** X10. Every borrow record the service ever writes is of a six-digit
    patron and of a stored book, and its due date is exactly fourteen
    days after its borrow date; a return does not alter these. This holds
    after every sequence of calls on the empty store, whatever the fate
    of the writes. *)
Theorem records_well_dated (ops : list op) (r : borrow) :
  In r (borrows (snd (run ops Db.empty))) ->
  six_digits (Db.patron_id r) = true
  /\ (exists t, borrow_date r = Iso t /\ due_date r = Iso (t + 14 * 86400)
               /\ date (t + 14 * 86400) = date t + 14)
  /\ get_book_by_id (Db.book_id r) (snd (run ops Db.empty)) <> None.
Proof.
  intros Hr.
  assert (H : records_ok (snd (run ops Db.empty))).
  { apply (run_preserves records_ok (fun _ => True)).
    - intros s r0 s' Hs _ He. exact (records_ok_step s r0 s' Hs He).
    - intros r0 [].
    - intros r0 _. exact I. }
  destruct (H r Hr) as [[Hsix (t & Hb & Hd)] Hf].
  split; [exact Hsix |]. split; [| exact Hf].
  exists t. split; [exact Hb |]. split; [exact Hd |].
  unfold date. apply Z.div_add. lia.
Qed.

Lemma records_well_dated_witness :
  six_digits "123456" = true
  /\ (exists t, Iso 90000 = Iso t /\ Iso 1299600 = Iso (t + 14 * 86400)
               /\ date (t + 14 * 86400) = date t + 14)
  /\ get_book_by_id 1
       (snd (run [Add true (PyStr "1984") (PyStr "George Orwell")
                    (PyStr "9999999999999") (PyInt 1);
                  Borrow true false 90000 (PyStr "123456") 1]
               Db.empty)) <> None.
Proof.
  apply (records_well_dated
           [Add true (PyStr "1984") (PyStr "George Orwell")
              (PyStr "9999999999999") (PyInt 1);
            Borrow true false 90000 (PyStr "123456") 1]
           (mkBorrow "123456" 1 (Iso 90000) (Iso 1299600) None)).
  left. reflexivity.
Defined.

Lemma in_updated (bid delta : Z) (bs : list book) (b' : book) :
  In b' (map (add_available bid delta) bs) ->
  exists b, In b bs /\ same_book b b'.
Proof.
  intros H. apply in_map_iff in H. destruct H as (b & <- & Hb).
  exists b. split; [exact Hb |].
  unfold same_book, add_available. destruct (id b =? bid); cbn; auto.
Qed.

Lemma map_isbn_add_available (bid delta : Z) (bs : list book) :
  map isbn (map (add_available bid delta) bs) = map isbn bs.
Proof.
  induction bs as [| b bs IH]; [reflexivity |].
  cbn [map]. rewrite IH. f_equal.
  unfold add_available. destruct (id b =? bid); reflexivity.
Qed.

Lemma admitted_same (b b' : book) : same_book b b' -> admitted b -> admitted b'.
Proof.
  unfold same_book, admitted. intros (_ & -> & -> & -> & ->) H. exact H.
Qed.

Lemma catalog_ok_updated (s : db) (took : bool) (bid delta : Z)
    (rows : list borrow) :
  catalog_ok s ->
  catalog_ok {| books := if took then map (add_available bid delta) (books s)
                         else books s;
                borrows := rows |}.
Proof.
  intros [Had Hnd]. destruct took; [| split; assumption].
  split; cbn [books].
  - intros b' Hb'. destruct (in_updated _ _ _ _ Hb') as (b & Hb & Hsame).
    exact (admitted_same b b' Hsame (Had b Hb)).
  - now rewrite map_isbn_add_available.
Qed.

Lemma catalog_ok_step (s : db) (r : outcome (bool * message)) (s' : db) :
  catalog_ok s -> effect s r s' -> catalog_ok s'.
Proof.
  intros Hs He.
  destruct He as [r _ _ | t a i n Hv Hn Hnew _ _ _ | p bid b now took _ _ _ _
                 | p bid b now rows back _ _].
  - exact Hs.
  - destruct Hs as [Had Hnd]. split; cbn [books].
    + intros b [<- | Hb]; [| now apply Had].
      unfold valid_texts in Hv.
      repeat (apply andb_prop in Hv; destruct Hv as [Hv ?]).
      unfold admitted. cbn [Db.title Db.author Db.isbn total_copies].
      repeat match goal with
             | H : negb _ = true |- _ => apply negb_true_iff in H
             | H : (_ <=? _) = true |- _ => apply Z.leb_le in H
             | H : (_ =? _) = true |- _ => apply Z.eqb_eq in H
             | H : String.eqb _ _ = false |- _ => apply String.eqb_neq in H
             end.
      repeat split; assumption.
    + cbn [map Db.isbn]. constructor; [| exact Hnd].
      intros Hin. apply in_map_iff in Hin. destruct Hin as (b & Hi & Hb).
      apply (get_book_by_isbn_stored i s b Hb Hi Hnew).
  - now apply catalog_ok_updated.
  - now apply catalog_ok_updated.
Qed.

(** X11. The catalog stays as admission built it: after every sequence of
    calls on the empty store, whatever the fate of the writes, every
    stored book has a non-empty title of at most 200 characters, a
    non-empty author of at most 100, an isbn of exactly 13 digits and a
    positive number of copies, and no two stored books share an isbn. *)
Theorem catalog_kept (ops : list op) :
  (forall b, In b (books (snd (run ops Db.empty))) ->
     Db.title b <> "" /\ len (Db.title b) <= 200
     /\ Db.author b <> "" /\ len (Db.author b) <= 100
     /\ len (Db.isbn b) = 13 /\ isdigit (Db.isbn b) = true
     /\ 0 < total_copies b)
  /\ NoDup (map Db.isbn (books (snd (run ops Db.empty)))).
Proof.
  change (catalog_ok (snd (run ops Db.empty))).
  apply (run_preserves catalog_ok (fun _ => True)).
  - intros s r s' Hs _ He. exact (catalog_ok_step s r s' Hs He).
  - split; [intros b [] | constructor].
  - intros r _. exact I.
Qed.

Lemma balanced_step (s : db) (r : outcome (bool * message)) (s' : db) :
  consistent s /\ balanced s -> ~ torn r -> effect s r s' ->
  consistent s' /\ balanced s'.
Proof.
  intros [Hc Hb] Hr He.
  destruct He as [r _ _ | t a i n _ Hn _ _ _ _ | p bid b now took _ Hg Ha _
                 | p bid b now rows back Hg Hcl].
  - split; assumption.
  - split; [now apply consistent_insert |].
    intros b0 [<- | Hb0]; cbn [books borrows]; [| now apply Hb].
    cbn [available_copies total_copies id].
    rewrite loans_of_unknown; [lia |].
    intros r Hr0. destruct (loans_known s Hc r Hr0) as (b1 & Hb1 & <-).
    pose proof (id_le_max_id _ _ Hb1). lia.
  - destruct took;
      [| exfalso; apply Hr; left; reflexivity].
    split; [now apply (consistent_borrow s p bid b) |].
    pose proof Hg as Hg'. apply get_book_by_id_found in Hg'.
    destruct Hg' as [Hin Hid].
    intros b' Hb'. cbn [books borrows] in *.
    apply in_map_iff in Hb'. destruct Hb' as (b0 & <- & Hb0).
    rewrite add_available_id, loans_of_cons.
    unfold on_loan, add_available. cbn [Db.book_id return_date].
    specialize (Hb b0 Hb0). rewrite (Z.eqb_sym bid (id b0)).
    destruct (id b0 =? bid); cbn [andb available_copies total_copies]; lia.
  - destruct back;
      [| exfalso; apply Hr; right; reflexivity].
    split; [exact (consistent_return s p bid now rows true Hc Hcl) |].
    apply close_latest_loans in Hcl. destruct Hcl as (H1 & H2 & _).
    intros b' Hb'. cbn [books borrows] in *.
    apply in_map_iff in Hb'. destruct Hb' as (b0 & <- & Hb0).
    rewrite add_available_id. unfold add_available.
    specialize (Hb b0 Hb0).
    destruct (id b0 =? bid) eqn:E.
    + apply Z.eqb_eq in E. cbn [available_copies total_copies].
      rewrite E in *. rewrite H1. lia.
    + apply Z.eqb_neq in E. rewrite (H2 _ E). lia.
Qed.

(** X12. Copies are conserved: after every sequence of calls on the empty
    store in which no call ended between its two writes (no borrow and no
    return reported the failure of its availability update), for every
    book the available copies plus the active loans of the book are
    exactly its total copies. *)
Theorem copies_conserved (ops : list op) :
  (forall r, In r (fst (run ops Db.empty)) -> ~ torn r) ->
  forall b, In b (books (snd (run ops Db.empty))) ->
    available_copies b
    + loans_of (id b) (borrows (snd (run ops Db.empty)))
    = total_copies b.
Proof.
  intros Hno.
  apply (run_preserves (fun s => consistent s /\ balanced s)
           (fun r => ~ torn r)).
  - intros s r s' Hs Hr He. exact (balanced_step s r s' Hs Hr He).
  - split; [apply consistent_empty | intros b []].
  - exact Hno.
Qed.

Lemma copies_conserved_witness :
  available_copies (mkBook 1 "1984" "George Orwell" "9999999999999" 2 1)
  + loans_of 1
      (borrows
         (snd (run [Add true (PyStr "1984") (PyStr "George Orwell")
                      (PyStr "9999999999999") (PyInt 2);
                    Borrow true true 0 (PyStr "123456") 1;
                    Borrow false true 0 (PyStr "654321") 1;
                    Borrow true true 0 (PyStr "654321") 1;
                    Return true true 86400 (PyStr "123456") (PyStr "1")]
                 Db.empty)))
  = 2.
Proof.
  apply (copies_conserved
           [Add true (PyStr "1984") (PyStr "George Orwell")
              (PyStr "9999999999999") (PyInt 2);
            Borrow true true 0 (PyStr "123456") 1;
            Borrow false true 0 (PyStr "654321") 1;
            Borrow true true 0 (PyStr "654321") 1;
            Return true true 86400 (PyStr "123456") (PyStr "1")]).
  - intros r Hr. vm_compute in Hr.
    repeat (destruct Hr as [<- | Hr];
            [intros [H | H]; discriminate H |]).
    destruct Hr.
  - left. reflexivity.
Defined.

Lemma same_book_refl (b : book) : same_book b b.
Proof. repeat split. Qed.

Lemma same_book_trans (b1 b2 b3 : book) :
  same_book b1 b2 -> same_book b2 b3 -> same_book b1 b3.
Proof.
  unfold same_book. intros (A1 & A2 & A3 & A4 & A5) (B1 & B2 & B3 & B4 & B5).
  repeat split; congruence.
Qed.

Lemma same_book_step (s : db) (r : outcome (bool * message)) (s' : db)
    (bid : Z) (b : book) :
  get_book_by_id bid s = Some b -> effect s r s' ->
  exists b', get_book_by_id bid s' = Some b' /\ same_book b b'.
Proof.
  intros Hg He.
  assert (Hupd : forall delta bid' rows,
             exists b', get_book_by_id bid
                          {| books := map (add_available bid' delta) (books s);
                             borrows := rows |} = Some b'
                        /\ same_book b b').
  { intros delta bid' rows.
    rewrite (get_book_by_id_update bid bid' delta (books s) (borrows s) rows).
    destruct s as [bs rs]. cbn [books borrows] in *. rewrite Hg.
    eexists. split; [reflexivity |].
    unfold same_book, add_available. destruct (id b =? bid'); cbn; auto. }
  destruct He as [r _ _ | t a i n _ _ _ _ _ _ | p bid0 b0 now took _ _ _ _
                 | p bid0 b0 now rows back _ _].
  - exists b. split; [exact Hg | apply same_book_refl].
  - exists b. split; [| apply same_book_refl].
    pose proof Hg as Hg'. apply get_book_by_id_found in Hg'.
    destruct Hg' as [Hin Hid]. pose proof (id_le_max_id _ _ Hin).
    unfold get_book_by_id in *. cbn [books find id].
    assert (E : (max_id (books s) + 1 =? bid) = false)
      by (apply Z.eqb_neq; lia).
    rewrite E. exact Hg.
  - destruct took; [apply Hupd |].
    exists b. split; [exact Hg | apply same_book_refl].
  - destruct back; [apply Hupd |].
    exists b. split; [exact Hg | apply same_book_refl].
Qed.

(** X13. Borrowing and returning change nothing of a book but its
    available copies, and admission never touches a stored book: after
    every sequence of calls from any store, a book that was stored is
    still found under its id with the same title, author, isbn and total
    copies. *)
Theorem book_fields_fixed (ops : list op) (s : db) (bid : Z) (b : book) :
  get_book_by_id bid s = Some b ->
  exists b', get_book_by_id bid (snd (run ops s)) = Some b'
             /\ id b' = id b /\ Db.title b' = Db.title b
             /\ Db.author b' = Db.author b /\ Db.isbn b' = Db.isbn b
             /\ total_copies b' = total_copies b.
Proof.
  intros Hg.
  apply (run_preserves
           (fun s' => exists b', get_book_by_id bid s' = Some b'
                                 /\ same_book b b')
           (fun _ => True)).
  - intros s1 r s2 (b1 & Hg1 & Hs1) _ He.
    destruct (same_book_step s1 r s2 bid b1 Hg1 He) as (b2 & Hg2 & Hs2).
    exists b2. split; [exact Hg2 | exact (same_book_trans b b1 b2 Hs1 Hs2)].
  - exists b. split; [exact Hg | apply same_book_refl].
  - intros r _. exact I.
Qed.

Lemma book_fields_fixed_witness :
  exists b',
    get_book_by_id 1
      (snd (run [Borrow true true 0 (PyStr "123456") 1;
                 Add true (PyStr "Emma") (PyStr "Jane Austen")
                   (PyStr "1234567890123") (PyInt 2)]
              store_one_book)) = Some b'
    /\ id b' = 1 /\ Db.title b' = "1984"
    /\ Db.author b' = "George Orwell" /\ Db.isbn b' = "9999999999999"
    /\ total_copies b' = 1.
Proof.
  apply (book_fields_fixed
           [Borrow true true 0 (PyStr "123456") 1;
            Add true (PyStr "Emma") (PyStr "Jane Austen")
              (PyStr "1234567890123") (PyInt 2)]
           store_one_book 1
           (mkBook 1 "1984" "George Orwell" "9999999999999" 1 1)).
  reflexivity.
Defined.

Lemma kept_refl (r : borrow) : kept r r.
Proof. repeat split; auto. Qed.

Lemma kept_trans (r1 r2 r3 : borrow) : kept r1 r2 -> kept r2 r3 -> kept r1 r3.
Proof.
  unfold kept. intros (A1 & A2 & A3 & A4 & A5) (B1 & B2 & B3 & B4 & B5).
  repeat split; try congruence. intros t Ht. apply B5, A5, Ht.
Qed.

Lemma kept_step (s : db) (r : outcome (bool * message)) (s' : db) :
  effect s r s' ->
  (List.length (borrows s) <= List.length (borrows s'))%nat
  /\ forall r0, In r0 (borrows s) ->
     exists r1, In r1 (borrows s') /\ kept r0 r1.
Proof.
  intros He.
  destruct He as [r _ _ | t a i n _ _ _ _ _ _ | p bid b now took _ _ _ _
                 | p bid b now rows back _ Hc]; cbn [borrows].
  - split; [lia |]. intros r0 H0. exists r0. split; [exact H0 | apply kept_refl].
  - split; [lia |]. intros r0 H0. exists r0. split; [exact H0 | apply kept_refl].
  - split; [cbn [List.length]; lia |].
    intros r0 H0. exists r0. split; [now right | apply kept_refl].
  - apply close_latest_forth in Hc. destruct Hc as [Hlen Hk].
    split; [lia | exact Hk].
Qed.

(** X14. Borrow records are an audit trail: after every sequence of calls
    from any store, there are at least as many records as before, and
    every earlier record is still there with its patron, book, borrow
    date and due date, and with its return date if it had one. *)
Theorem records_never_lost (ops : list op) (s : db) :
  (List.length (borrows s) <= List.length (borrows (snd (run ops s))))%nat
  /\ forall r, In r (borrows s) ->
     exists r', In r' (borrows (snd (run ops s))) /\ kept r r'.
Proof.
  apply (run_preserves
           (fun s' =>
              (List.length (borrows s) <= List.length (borrows s'))%nat
              /\ forall r, In r (borrows s) ->
                 exists r', In r' (borrows s') /\ kept r r')
           (fun _ => True)).
  - intros s1 r s2 [Hlen Hk] _ He.
    destruct (kept_step s1 r s2 He) as [Hlen' Hk'].
    split; [lia |]. intros r0 H0.
    destruct (Hk r0 H0) as (r1 & H1 & K1).
    destruct (Hk' r1 H1) as (r2 & H2 & K2).
    exists r2. split; [exact H2 | exact (kept_trans r0 r1 r2 K1 K2)].
  - split; [lia |]. intros r H. exists r. split; [exact H | apply kept_refl].
  - intros r _. exact I.
Qed.

Lemma records_never_lost_witness :
  exists r',
    In r' (borrows (snd (run [Return true true 86400 (PyStr "123456")
                                (PyInt 1);
                              Borrow true true 90000 (PyStr "654321") 1]
                           store_at_limit)))
    /\ kept (mkBorrow "123456" 1 (Iso 0) (Iso 1209600) None) r'.
Proof.
  apply (proj2 (records_never_lost
                  [Return true true 86400 (PyStr "123456") (PyInt 1);
                   Borrow true true 90000 (PyStr "654321") 1]
                  store_at_limit)).
  left. reflexivity.
Defined.

(* ===================================================================== *)
(** ** How the operations compose                                         *)
(* ===================================================================== *)

(** X15. Taking the last copy closes the book to everyone: after a
    successful borrow of a book that had one available copy, a further
    borrow of it by any patron with a well-formed id reports that the
    book is not available and leaves the store as it is, whatever the
    patron's own loan count. *)
Theorem last_copy_taken (k1 k2 k3 k4 : bool) (t1 t2 : datetime)
    (patron_id patron_id' : pyobj) (bid : Z) (s s' : db) (m : message) :
  borrow_book_by_patron k1 k2 t1 patron_id bid s = (Returns (true, m), s') ->
  available_of bid s = Some 1 ->
  patron_id_rejected patron_id' = Returns false ->
  borrow_book_by_patron k3 k4 t2 patron_id' bid s'
  = (Returns (false, Not_available), s').
Proof.
  intros Hrun Hone Hp.
  apply borrow_success in Hrun. destruct Hrun as (b & Hg & _ & ->).
  rewrite borrow_unfold by assumption.
  rewrite (get_book_by_id_update bid bid (-1) (books s) (borrows s)).
  unfold available_of in Hone.
  destruct s as [bs rs]. cbn [books borrows] in *.
  rewrite Hg in *. cbn [option_map] in *. inversion Hone as [Hav].
  apply get_book_by_id_found in Hg. destruct Hg as [_ Hid].
  unfold add_available. apply Z.eqb_eq in Hid. rewrite Hid.
  cbn [available_copies]. rewrite Hav. reflexivity.
Qed.

Lemma last_copy_taken_witness :
  borrow_book_by_patron true true 5 (PyStr "654321") 1
    (snd (borrow_book_by_patron true true 0 (PyStr "123456") 1 store_one_book))
  = (Returns (false, Not_available),
     snd (borrow_book_by_patron true true 0 (PyStr "123456") 1 store_one_book)).
Proof.
  apply (last_copy_taken true true true true 0 5 (PyStr "123456")
           (PyStr "654321") 1 store_one_book
           (snd (borrow_book_by_patron true true 0 (PyStr "123456") 1
                   store_one_book))
           (Borrowed "1984" 14)).
  - reflexivity.
  - reflexivity.
  - reflexivity.
Defined.

Lemma borrow_success_patron (k1 k2 : bool) (now : datetime) (p : string)
    (bid : Z) (s s' : db) (m : message) :
  borrow_book_by_patron k1 k2 now (PyStr p) bid s = (Returns (true, m), s') ->
  six_digits p = true.
Proof.
  intros H. destruct (six_digits p) eqn:E; [reflexivity |].
  unfold borrow_book_by_patron in H.
  rewrite patron_id_rejected_str, E in H. discriminate H.
Qed.

Lemma borrow_success_range (k1 k2 : bool) (now : datetime)
    (patron_id : pyobj) (bid : Z) (s s' : db) (m : message) :
  borrow_book_by_patron k1 k2 now patron_id bid s = (Returns (true, m), s') ->
  in_int64 bid = true /\ in_datetime_range (plus_days now 14) = true.
Proof.
  intros Hrun.
  destruct (patron_id_rejected patron_id) as [[|] | e] eqn:Hp;
    try (unfold borrow_book_by_patron in Hrun; rewrite Hp in Hrun;
         discriminate Hrun).
  rewrite borrow_unfold in Hrun by assumption.
  destruct (get_book_by_id bid s) as [b |]; [| discriminate Hrun].
  destruct (available_copies b <=? 0); [discriminate Hrun |].
  destruct (get_patron_borrow_count (str_of patron_id) s >=? 5);
    [discriminate Hrun |].
  destruct (in_datetime_range (plus_days now 14)); [| discriminate Hrun].
  destruct k1; [| discriminate Hrun].
  destruct (in_int64 bid); [| discriminate Hrun].
  split; reflexivity.
Qed.

Lemma date_plus_days (t n : Z) : date (plus_days t n) = date t + n.
Proof. unfold date, plus_days. apply Z.div_add. lia. Qed.

(** X16. A loan just made is judged on its own due date: after a
    successful borrow at time [now], the fee calculation for the same
    patron and book at time [today] reports
    max(0, date(today) - date(now) - 14) days overdue; it reports
    [on_time] with fee 0.0 up to and including the fourteenth day after
    the borrow, and [late] from the fifteenth. *)
Theorem fresh_loan_fee (k1 k2 : bool) (now today : datetime) (p : string)
    (book_id : pyobj) (bid : Z) (s s' : db) (m : message) :
  borrow_book_by_patron k1 k2 now (PyStr p) bid s = (Returns (true, m), s') ->
  try_int book_id = Some bid ->
  exists r,
    calculate_late_fee_for_book today (PyStr p) book_id s' = Returns r
    /\ days_overdue r = Z.max 0 (date today - date now - 14)
    /\ (date today <= date now + 14 -> r = mkFee 0 0 on_time)
    /\ (date now + 14 < date today -> status r = late).
Proof.
  intros Hrun Hint.
  pose proof (borrow_success_patron _ _ _ _ _ _ _ _ Hrun) as Hsix.
  destruct (borrow_success_range _ _ _ _ _ _ _ _ Hrun) as [Hrange _].
  apply borrow_success in Hrun. destruct Hrun as (b & _ & _ & ->).
  assert (Hcalc :
            calculate_late_fee_for_book today (PyStr p) book_id
              {| books := map (add_available bid (-1)) (books s);
                 borrows := mkBorrow (str_of (PyStr p)) bid (Iso now)
                              (Iso (plus_days now 14)) None :: borrows s |}
            = Returns (report_of_days
                         (Z.max 0 (date today - date now - 14)))).
  { unfold calculate_late_fee_for_book.
    rewrite patron_id_rejected_str, Hsix. cbn [negb bind str_of].
    rewrite Hint. unfold latest_active. rewrite Hrange. cbn [borrows find].
    unfold active_for at 1. cbn [Db.patron_id Db.book_id return_date].
    rewrite String.eqb_refl, Z.eqb_refl.
    cbn [andb bind due_date fromisoformat].
    rewrite date_plus_days.
    replace (date today - (date now + 14)) with (date today - date now - 14)
      by lia.
    unfold report_of_days.
    destruct (Z.max 0 (date today - date now - 14) =? 0); reflexivity. }
  rewrite Hcalc. eexists. split; [reflexivity |].
  set (d := Z.max 0 (date today - date now - 14)).
  assert (Hd : 0 <= d) by (unfold d; lia).
  destruct (report_of_days_sound d Hd) as (H1 & _ & _ & H4 & _).
  split; [exact H1 |]. split.
  - intros Hle. assert (E : d = 0) by (unfold d; lia).
    rewrite E. reflexivity.
  - intros Hlt. apply H4. unfold d. lia.
Qed.

Lemma fresh_loan_fee_witness :
  exists r,
    calculate_late_fee_for_book (15 * 86400 - 1) (PyStr "123456") (PyStr "1")
      (snd (borrow_book_by_patron true true 3600 (PyStr "123456") 1
              store_one_book)) = Returns r
    /\ days_overdue r = 0 /\ r = mkFee 0 0 on_time.
Proof.
  destruct (fresh_loan_fee true true 3600 (15 * 86400 - 1) "123456"
              (PyStr "1") 1 store_one_book
              (snd (borrow_book_by_patron true true 3600 (PyStr "123456") 1
                      store_one_book))
              (Borrowed "1984" 14) eq_refl eq_refl)
    as (r & Hr & Hd & Hon & _).
  exists r. split; [exact Hr |]. split.
  - rewrite Hd. reflexivity.
  - apply Hon. vm_compute. discriminate.
Defined.

Lemma find_none_all {A : Type} (f : A -> bool) (l : list A) :
  (forall x, In x l -> f x = false) -> find f l = None.
Proof.
  induction l as [| x l IH]; intros H; [reflexivity |].
  cbn [find]. rewrite (H x (or_introl eq_refl)).
  apply IH. intros y Hy. apply H. now right.
Qed.

(** X17. A returned loan is gone: when the pair had no active loan, a
    successful borrow followed by a successful return leaves the pair
    without one, so the fee calculation reports [no_active_loan] with fee
    0.0 at any later time, and a second return fails with
    [No active borrow] and changes nothing. *)
Theorem returned_loan_is_gone (k1 k2 k3 k4 : bool) (t1 t2 : datetime)
    (p : string) (book_id : pyobj) (bid : Z) (s s1 s2 : db)
    (m1 m2 : message) :
  (forall r, In r (borrows s) -> active_for p bid r = false) ->
  borrow_book_by_patron k1 k2 t1 (PyStr p) bid s = (Returns (true, m1), s1) ->
  try_int book_id = Some bid ->
  return_book_by_patron k3 k4 t2 (PyStr p) book_id s1
  = (Returns (true, m2), s2) ->
  (forall today,
     calculate_late_fee_for_book today (PyStr p) book_id s2
     = Returns no_loan_report)
  /\ (forall k5 k6 t3,
        return_book_by_patron k5 k6 t3 (PyStr p) book_id s2
        = (Returns (false, No_active_borrow), s2)).
Proof.
  intros Hnone Hb Hint Hr.
  pose proof (borrow_success_patron _ _ _ _ _ _ _ _ Hb) as Hsix.
  destruct (borrow_success_range _ _ _ _ _ _ _ _ Hb) as [Hrange _].
  apply borrow_success in Hb. destruct Hb as (b & Hg & _ & ->).
  apply return_success in Hr.
  destruct Hr as (bid' & b1 & rows & Hint' & Hg1 & Hc & ->).
  rewrite Hint in Hint'. inversion Hint'; subst bid'. clear Hint'.
  cbn [borrows books str_of close_latest] in Hc.
  unfold active_for at 1 in Hc. cbn [Db.patron_id Db.book_id return_date] in Hc.
  rewrite String.eqb_refl, Z.eqb_refl in Hc. cbn [andb] in Hc.
  inversion Hc; subst rows; clear Hc.
  assert (Hgone : forall r,
             In r (mkBorrow p bid (Iso t1) (Iso (plus_days t1 14)) (Some t2)
                   :: borrows s) ->
             active_for p bid r = false).
  { intros r [<- | Hr]; [| now apply Hnone].
    unfold active_for. cbn [return_date]. apply andb_false_r. }
  assert (Hp : patron_id_rejected (PyStr p) = Returns false)
    by (rewrite patron_id_rejected_str, Hsix; reflexivity).
  split.
  - intros today. unfold calculate_late_fee_for_book.
    rewrite Hp. cbn [bind str_of]. rewrite Hint.
    unfold latest_active. rewrite Hrange. cbn [borrows].
    rewrite (find_none_all _ _ Hgone). reflexivity.
  - intros k5 k6 t3.
    rewrite (return_unfold k5 k6 t3 (PyStr p) book_id bid _ Hp Hint).
    cbn [borrows str_of]. rewrite (close_latest_none _ _ _ _ Hgone).
    match goal with
    | |- context [get_book_by_id bid ?st] =>
        destruct (get_book_by_id bid st) as [b2 |] eqn:Hg2
    end.
    + destruct (negb k5); reflexivity.
    + exfalso. revert Hg2.
      apply (found_after_update bid bid 1
               (map (add_available bid (-1)) (books s)) (borrows s)).
      apply (found_after_update bid bid (-1) (books s) (borrows s)).
      destruct s as [bs rs]. cbn [books borrows] in *. rewrite Hg.
      discriminate.
Qed.

Lemma returned_loan_is_gone_witness :
  calculate_late_fee_for_book (90 * 86400) (PyStr "123456") (PyInt 1)
    (snd (return_book_by_patron true true 86400 (PyStr "123456") (PyInt 1)
            (snd (borrow_book_by_patron true true 0 (PyStr "123456") 1
                    store_one_book))))
  = Returns no_loan_report.
Proof.
  apply (proj1 (returned_loan_is_gone true true true true 0 86400 "123456"
                  (PyInt 1) 1 store_one_book
                  (snd (borrow_book_by_patron true true 0 (PyStr "123456") 1
                          store_one_book))
                  (snd (return_book_by_patron true true 86400 (PyStr "123456")
                          (PyInt 1)
                          (snd (borrow_book_by_patron true true 0
                                  (PyStr "123456") 1 store_one_book))))
                  (Borrowed "1984" 14) (Returned "1984")
                  (fun r (H : In r (borrows store_one_book)) =>
                     match H with end)
                  eq_refl eq_refl eq_refl)).
Defined.

Lemma trimmed_step (s : db) (r : outcome (bool * message)) (s' : db) :
  trimmed s -> effect s r s' -> trimmed s'.
Proof.
  intros Hs He.
  assert (Hupd : forall bid delta rows (took : bool),
             trimmed {| books := if took
                                 then map (add_available bid delta) (books s)
                                 else books s;
                        borrows := rows |}).
  { intros bid delta rows [|]; [| exact Hs].
    intros b' Hb'. cbn [books] in Hb'.
    destruct (in_updated _ _ _ _ Hb') as (b & Hb & (_ & -> & -> & -> & _)).
    now apply Hs. }
  destruct He as [r _ _ | t a i n _ _ _ Ht Ha Hi | p bid b now took _ _ _ _
                 | p bid b now rows back _ _].
  - exact Hs.
  - intros b [<- | Hb]; [| now apply Hs].
    cbn [Db.title Db.author Db.isbn]. repeat split; assumption.
  - apply Hupd.
  - apply Hupd.
Qed.

(** X18. What the catalog stores is trimmed: after every sequence of calls
    on the empty store, whatever the fate of the writes, no stored title,
    author or isbn has whitespace at either end (trimming it again gives
    the same text). *)
Theorem stored_texts_trimmed (ops : list op) (b : book) :
  In b (books (snd (run ops Db.empty))) ->
  strip (Db.title b) = Db.title b /\ strip (Db.author b) = Db.author b
  /\ strip (Db.isbn b) = Db.isbn b.
Proof.
  revert b. change (trimmed (snd (run ops Db.empty))).
  apply (run_preserves trimmed (fun _ => True)).
  - intros s r s' Hs _ He. exact (trimmed_step s r s' Hs He).
  - intros b [].
  - intros r _. exact I.
Qed.

Lemma stored_texts_trimmed_witness :
  strip "Clean Code" = "Clean Code"
  /\ strip "Robert Martin" = "Robert Martin"
  /\ strip "9780132350884" = "9780132350884".
Proof.
  apply (stored_texts_trimmed
           [Add true (PyStr "  Clean Code ") (PyStr "Robert Martin  ")
              (PyStr " 9780132350884") (PyInt 3)]
           (mkBook 1 "Clean Code" "Robert Martin" "9780132350884" 3 3)).
  left. reflexivity.
Defined.

(** X19. [borrow_book_by_patron] succeeds exactly when the patron id
    passes its check, the book exists with a copy available, the patron
    holds fewer than five active loans, the due date fourteen days from
    now is still a [datetime] (else the addition raises
    [OverflowError]), the book id is one the store can bind, and both
    writes go through. *)
Theorem borrow_succeeds_iff (k1 k2 : bool) (now : datetime)
    (patron_id : pyobj) (bid : Z) (s : db) :
  succeeded (fst (borrow_book_by_patron k1 k2 now patron_id bid s)) = true
  <-> patron_id_rejected patron_id = Returns false
      /\ (exists b, get_book_by_id bid s = Some b /\ 0 < available_copies b)
      /\ get_patron_borrow_count (str_of patron_id) s < 5
      /\ in_datetime_range (plus_days now 14) = true
      /\ in_int64 bid = true
      /\ k1 = true /\ k2 = true.
Proof.
  destruct (patron_id_rejected patron_id) as [[|] | e] eqn:Hp.
  - unfold borrow_book_by_patron. rewrite Hp. cbn.
    split; [discriminate | intros (H & _); discriminate H].
  - rewrite borrow_unfold by assumption.
    destruct (get_book_by_id bid s) as [b |] eqn:Hg.
    + destruct (available_copies b <=? 0) eqn:Ha.
      * apply Z.leb_le in Ha. cbn. split; [discriminate |].
        intros (_ & (b' & Hb' & Hpos) & _). inversion Hb'; subst b'. lia.
      * apply Z.leb_gt in Ha.
        destruct (get_patron_borrow_count (str_of patron_id) s >=? 5) eqn:Hc.
        -- rewrite Z.geb_leb in Hc. apply Z.leb_le in Hc. cbn.
           split; [discriminate | intros (_ & _ & Hlt & _); lia].
        -- rewrite Z.geb_leb in Hc. apply Z.leb_gt in Hc.
           destruct (in_datetime_range (plus_days now 14)); cbn [negb];
             [| cbn; split;
                [discriminate | intros (_ & _ & _ & H & _); discriminate H]].
           destruct k1; cbn [andb];
             [| cbn; split;
                [discriminate
                | intros (_ & _ & _ & _ & _ & H & _); discriminate H]].
           destruct (in_int64 bid); cbn [negb];
             [| cbn; split;
                [discriminate
                | intros (_ & _ & _ & _ & H & _); discriminate H]].
           destruct k2; cbn;
             [| split;
                [discriminate
                | intros (_ & _ & _ & _ & _ & _ & H); discriminate H]].
           split; [intros _ | reflexivity].
           split; [reflexivity |]. split; [now exists b |].
           split; [exact Hc |]. repeat split.
    + cbn. split; [discriminate |].
      intros (_ & (b' & Hb' & _) & _). discriminate Hb'.
  - unfold borrow_book_by_patron. rewrite Hp. cbn.
    split; [discriminate | intros (H & _); discriminate H].
Qed.

(** X20. [return_book_by_patron] succeeds exactly when the patron id
    passes its check, the book id resolves to the id of a stored book,
    the pair has an active borrow record and both writes go through. *)
Theorem return_succeeds_iff (k1 k2 : bool) (now : datetime)
    (patron_id book_id : pyobj) (s : db) :
  succeeded (fst (return_book_by_patron k1 k2 now patron_id book_id s)) = true
  <-> patron_id_rejected patron_id = Returns false
      /\ (exists bid, try_int book_id = Some bid
                      /\ get_book_by_id bid s <> None
                      /\ exists r, In r (borrows s)
                                   /\ active_for (str_of patron_id) bid r
                                      = true)
      /\ k1 = true /\ k2 = true.
Proof.
  destruct (patron_id_rejected patron_id) as [[|] | e] eqn:Hp.
  - unfold return_book_by_patron. rewrite Hp. cbn.
    split; [discriminate | intros (H & _); discriminate H].
  - destruct (try_int book_id) as [bid |] eqn:Hb.
    + rewrite (return_unfold k1 k2 now patron_id book_id bid s Hp Hb).
      destruct (get_book_by_id bid s) as [b |] eqn:Hg.
      * destruct k1; cbn [negb].
        -- destruct (close_latest (str_of patron_id) bid now (borrows s))
             as [rows |] eqn:Hc.
           ++ assert (Hex : exists r, In r (borrows s)
                              /\ active_for (str_of patron_id) bid r = true).
              { clear - Hc. revert rows Hc.
                induction (borrows s) as [| r0 rs IH]; intros rows Hc;
                  [discriminate Hc |].
                cbn [close_latest] in Hc.
                destruct (active_for (str_of patron_id) bid r0) eqn:E.
                - exists r0. split; [now left | exact E].
                - destruct (close_latest (str_of patron_id) bid now rs)
                    as [rows1 |]; [| discriminate Hc].
                  destruct (IH rows1 eq_refl) as (r & Hr & Ha).
                  exists r. split; [now right | exact Ha]. }
              destruct k2; cbn;
                [| split;
                   [discriminate | intros (_ & _ & _ & H); discriminate H]].
              split; [intros _ | reflexivity].
              split; [reflexivity |]. split; [| now split].
              exists bid. split; [reflexivity |].
              split; [rewrite Hg; discriminate | exact Hex].
           ++ cbn. split; [discriminate |].
              intros (_ & (bid' & Hb' & _ & r & Hr & Ha) & _).
              inversion Hb'; subst bid'.
              exfalso. exact (close_latest_some _ _ now _ r Hr Ha Hc).
        -- cbn. split; [discriminate | intros (_ & _ & H & _); discriminate H].
      * cbn. split; [discriminate |].
        intros (_ & (bid' & Hb' & Hf & _) & _).
        inversion Hb'; subst bid'. now contradiction Hf.
    + unfold return_book_by_patron. rewrite Hp, Hb. cbn.
      split; [discriminate |].
      intros (_ & (bid' & Hb' & _) & _). discriminate Hb'.
  - unfold return_book_by_patron. rewrite Hp. cbn.
    split; [discriminate | intros (H & _); discriminate H].
Qed.

(** X21. A call that fails changes nothing, unless it ended between its
    two writes: whenever an add, a borrow or a return does not succeed
    (it returns false or raises) and does not report the failure of an
    availability update, the store after the call is the store before
    it. *)
Theorem failure_changes_nothing (o : op) (s : db) :
  succeeded (fst (step o s)) = false ->
  ~ torn (fst (step o s)) ->
  snd (step o s) = s.
Proof.
  intros Hf Hn. pose proof (step_effect o s) as He.
  destruct He as [r _ _ | t a i n _ _ _ _ _ _ | p bid b now took _ _ _ _
                 | p bid b now rows back _ _].
  - reflexivity.
  - discriminate Hf.
  - destruct took; [discriminate Hf |].
    exfalso. apply Hn. left. reflexivity.
  - destruct back; [discriminate Hf |].
    exfalso. apply Hn. right. reflexivity.
Qed.

Lemma failure_changes_nothing_witness :
  snd (step (Borrow false true 0 (PyStr "123456") 1) store_one_book)
  = store_one_book.
Proof.
  apply (failure_changes_nothing (Borrow false true 0 (PyStr "123456") 1)
           store_one_book).
  - reflexivity.
  - intros [H | H]; discriminate H.
Defined.

Lemma catalog_kept_witness :
  len "9999999999999" = 13 /\ isdigit "9999999999999" = true
  /\ NoDup (map Db.isbn
              (books (snd (run [Add true (PyStr "1984")
                                  (PyStr "George Orwell")
                                  (PyStr "9999999999999") (PyInt 1);
                                Add true (PyStr "Animal Farm")
                                  (PyStr "George Orwell")
                                  (PyStr "9999999999999") (PyInt 1)]
                             Db.empty)))).
Proof.
  destruct (catalog_kept
              [Add true (PyStr "1984") (PyStr "George Orwell")
                 (PyStr "9999999999999") (PyInt 1);
               Add true (PyStr "Animal Farm") (PyStr "George Orwell")
                 (PyStr "9999999999999") (PyInt 1)]) as [Hall Hnd].
  destruct (Hall (mkBook 1 "1984" "George Orwell" "9999999999999" 1 1)
              (or_introl eq_refl)) as (_ & _ & _ & _ & H13 & Hdig & _).
  split; [exact H13 |]. split; [exact Hdig | exact Hnd].
Defined.

Lemma borrow_succeeds_iff_witness :
  succeeded (fst (borrow_book_by_patron true true 0 (PyStr "123456") 1
                    store_one_book)) = true.
Proof.
  apply (proj2 (borrow_succeeds_iff true true 0 (PyStr "123456") 1
                  store_one_book)).
  split; [reflexivity |]. split.
  - exists (mkBook 1 "1984" "George Orwell" "9999999999999" 1 1).
    split; [reflexivity | cbn; lia].
  - split; [vm_compute; reflexivity | repeat split].
Defined.

Lemma return_succeeds_iff_witness :
  succeeded (fst (return_book_by_patron true true 86400 (PyStr "123456")
                    (PyStr "1") store_at_limit)) = true.
Proof.
  apply (proj2 (return_succeeds_iff true true 86400 (PyStr "123456")
                  (PyStr "1") store_at_limit)).
  split; [reflexivity |]. split; [| split; reflexivity].
  exists 1. split; [reflexivity |]. split; [discriminate |].
  exists (mkBorrow "123456" 1 (Iso 0) (Iso 1209600) None).
  split; [left; reflexivity | reflexivity].
Defined.
